(** * slicknode CLI: cluster resolution, environment resolution and deployment

    A shallow embedding of [InitCommand.getCluster] (src/commands/init.ts) and
    of [DeployCommand.run], [DeployCommand.getOrCreateEnvironment] and
    [DeployCommand.getCluster] (the deploy command), with the properties of
    their control flow.

    The commands are asynchronous methods that talk to collaborators (GraphQL
    client, node-fetch, inquirer, logger, environment store).  They are
    embedded as computations in a state-and-exception monad: the state holds
    the environment store and the chronological trace of the effects the
    method performs; the answers of the collaborators are read from a
    [World] record of oracles. *)

From Stdlib Require Import Ascii.
From stdpp Require Import gmap strings list sorting pretty.

Local Open Scope string_scope.
Local Open Scope Z_scope.
Local Open Scope list_scope.

(** ** JavaScript values used by the commands *)

Module JS.

(** Numbers as the commands use them: integers (millisecond differences of
    [Date.now()], counters), the infinities and NaN. *)
Inductive Number : Type :=
| Num (z : Z)
| Infinity
| NegInfinity
| NaN.

#[global] Instance Number_eq_dec : EqDecision Number.
Proof. solve_decision. Defined.

(** [a - b] *)
Definition sub (a b : Number) : Number :=
  match a, b with
  | NaN, _ | _, NaN => NaN
  | Num x, Num y => Num (x - y)
  | Num _, Infinity => NegInfinity
  | Num _, NegInfinity => Infinity
  | Infinity, Infinity => NaN
  | Infinity, _ => Infinity
  | NegInfinity, NegInfinity => NaN
  | NegInfinity, _ => NegInfinity
  end.

(** [v > 0], which is false on NaN. *)
Definition gt0 (v : Number) : bool :=
  match v with
  | Num z => 0 <? z
  | Infinity => true
  | NegInfinity | NaN => false
  end.

(** [o[k] += 1] reads [o[k]]: a missing property is [undefined], and
    [undefined + 1] is NaN. *)
Definition incr (v : option Number) : Number :=
  match v with
  | Some (Num z) => Num (z + 1)
  | Some Infinity => Infinity
  | Some NegInfinity => NegInfinity
  | Some NaN | None => NaN
  end.

(** [String(v)], as a template literal renders a number. *)
Definition toString (v : Number) : string :=
  match v with
  | Num z => pretty z
  | Infinity => "Infinity"
  | NegInfinity => "-Infinity"
  | NaN => "NaN"
  end.

(** [`${v}`] for a property that may be missing. *)
Definition template {A} (show : A → string) (v : option A) : string :=
  match v with
  | Some a => show a
  | None => "undefined"
  end.

(** Truthiness of a string-valued option or property: [undefined], [null]
    and the empty string are falsy. *)
Definition truthy (v : option string) : bool :=
  match v with
  | Some s => negb (String.eqb s "")
  | None => false
  end.

(** [a || b] on such values. *)
Definition or (a b : option string) : option string :=
  if truthy a then a else b.

(** [String.prototype.toLowerCase] on the ASCII letters.  A character
    outside ASCII is never mapped to one of the letters of [add], [update]
    and [remove], so the classification of a type tag is the one of the
    full Unicode mapping. *)
Definition lower_ascii (c : ascii) : ascii :=
  let n := N_of_ascii c in
  if ((65 <=? n) && (n <=? 90))%N then ascii_of_N (n + 32) else c.

Fixpoint toLowerCase (s : string) : string :=
  match s with
  | EmptyString => EmptyString
  | String c s' => String (lower_ascii c) (toLowerCase s')
  end.

(** [Array.prototype.sort(comparefn)].  ECMAScript reads the value [v]
    returned by [comparefn(x, y)] as: [x] after [y] iff [v > 0], with NaN
    read as [+0].  For a consistent comparator the result is the stable
    sort, whatever the algorithm; it is written here as an insertion sort.
    For an inconsistent comparator the order is implementation-defined:
    what is proved about such a call below relies only on the result being
    a permutation of the array. *)
Section Sort.
Context {A : Type} (comparefn : A → A → Number).

Fixpoint sort_insert (x : A) (l : list A) : list A :=
  match l with
  | [] => [x]
  | y :: l' => if gt0 (comparefn x y) then y :: sort_insert x l' else x :: l
  end.

Fixpoint Array_sort (l : list A) : list A :=
  match l with
  | [] => []
  | x :: l' => sort_insert x (Array_sort l')
  end.
End Sort.

End JS.

(** ** Data model

    The interfaces of [../types] carry the fields that the GraphQL documents
    of the commands select.  A property that a JSON response or the stored
    record may leave out is an [option]: [None] is [undefined] or [null]. *)

Record ICluster : Type := {
  cluster_id : string;
  cluster_alias : string;
  cluster_name : string;
  pingUrl : string;
}.

Record IEnvironmentConfig : Type := {
  env_endpoint : option string;
  env_version : option string;
  env_alias : option string;
  env_consoleUrl : option string;
  env_playgroundUrl : option string;
  env_name : option string;
  env_id : option string;
}.

Record Version : Type := {
  version_bundle : option string;
  version_id : option string;
}.

Record ProjectNode : Type := {
  node_id : option string;
  node_alias : option string;
  node_name : option string;
  node_endpoint : option string;
  node_consoleUrl : option string;
  node_playgroundUrl : option string;
  node_version : option Version;
}.

(** An entry of the top-level [errors] array of a GraphQL response. *)
Record GraphQLError : Type := { message : string }.

(** An entry of [data.migrateProject.errors]: an object, of which [run]
    reads nothing but hands it to [printErrors]. *)
Record IProjectChangeError : Type := { error_description : string }.

Record Change : Type := {
  change_type : string;
  change_description : string;
}.

Record CreateProjectInput : Type := {
  input_name : option string;
  input_alias : option string;
  input_cluster : string;
  input_account : option string;
}.

(** The three responses, read the way the commands read them with [_.get]:
    a list that the response leaves out is the default [[]]. *)
Record ListClusterResult : Type := {
  listCluster_edges : list ICluster;
  listCluster_errors : list GraphQLError;
}.

Record CreateProjectResult : Type := {
  createProject_node : option ProjectNode;
  createProject_errors : list GraphQLError;
}.

Record MigrateProjectResult : Type := {
  migrateProject_node : option ProjectNode;
  migrateProject_changes : list Change;
  (** [data.migrateProject.errors]; an entry may be [null] *)
  migrateProject_errors : list (option IProjectChangeError);
  (** the top-level [errors] *)
  migrate_errors : list GraphQLError;
}.

(** [this.options] of the deploy command. *)
Record IDeployCommandOptions : Type := {
  opt_force : bool;
  opt_env : option string;
  opt_account : option string;
  opt_alias : option string;
  opt_name : option string;
}.

(** An [input] question and a [list] choice of inquirer. *)
Record Question : Type := {
  question_name : string;
  question_message : string;
  question_default : option string;
}.

Record Choice : Type := {
  choice_name : string;
  choice_value : ICluster;
}.

Inductive Request : Type :=
| ListCluster
| CreateProject (input : CreateProjectInput).

(** ** Effects *)

Inductive Event : Type :=
| LoggerLog (msg : string)
| LoggerError (msg : string)
| CliAction (started : bool)
| PrintErrors (errors : list IProjectChangeError)
| ClientFetch (request : Request)
| Fetch (url : string)
| MigrateProject (dryRun : bool) (env : IEnvironmentConfig)
| InquirerInput (questions : list Question)
| InquirerList (choices : list Choice)
| InquirerConfirm
| LoadProjectVersion (bundle : string)
| UpdateEnvironment (name : string) (config : IEnvironmentConfig).

(** Requests that leave the machine. *)
Definition is_network (e : Event) : bool :=
  match e with
  | ClientFetch _ | Fetch _ | MigrateProject _ _ => true
  | _ => false
  end.

Definition is_probe (e : Event) : bool :=
  match e with Fetch _ => true | _ => false end.

Definition is_prompt (e : Event) : bool :=
  match e with
  | InquirerInput _ | InquirerList _ | InquirerConfirm => true
  | _ => false
  end.

Definition is_refresh (e : Event) : bool :=
  match e with LoadProjectVersion _ => true | _ => false end.

Definition is_store_write (e : Event) : bool :=
  match e with UpdateEnvironment _ _ => true | _ => false end.

(** What the collaborators answer during one run of a command. *)
Record World : Type := {
  (** the GraphQL client *)
  api_listCluster : ListClusterResult;
  api_createProject : CreateProjectInput → CreateProjectResult;
  api_migrateProject : bool → IEnvironmentConfig → MigrateProjectResult;
  (** [fetch(node.pingUrl)] for the candidate at a position of the list:
      the milliseconds [Date.now() - start] when the request resolves,
      [None] when it rejects *)
  probe : nat → string → option Z;
  (** inquirer *)
  inquirer_input : list Question → gmap string string;
  inquirer_list : list Choice → nat;
  inquirer_confirm : bool;
  (** helpers of the base commands and of [../../utils] *)
  getConfig : bool;
  validate : list string;
  updateRequired : bool;
  authenticate : bool;
  loadAndPrintStatus : IEnvironmentConfig → bool;
  loadProjectVersion : string → bool;
}.

Record State : Type := {
  store : gmap string IEnvironmentConfig;
  trace : list Event;
}.

Inductive Outcome (A : Type) : Type :=
| Return (a : A)
| Throw (error : string).
Arguments Return {A} a.
Arguments Throw {A} error.

(** A command or one of its steps: it returns or throws, and leaves a state. *)
Definition M (A : Type) : Type := State → Outcome A * State.

#[global] Instance M_ret : MRet M := λ A a s, (Return a, s).

#[global] Instance M_bind : MBind M := λ A B f m s,
  match m s with
  | (Return a, s') => f a s'
  | (Throw e, s') => (Throw e, s')
  end.

Definition throw {A} (error : string) : M A := λ s, (Throw error, s).

Definition emit (e : Event) : M unit :=
  λ s, (Return (), {| store := store s; trace := trace s ++ [e] |}).

Fixpoint forEach {A} (f : A → M unit) (l : list A) : M unit :=
  match l with
  | [] => mret ()
  | x :: l' => f x ;; forEach f l'
  end.

(** ** Collaborators *)

Definition newline : string := String (ascii_of_nat 10) EmptyString.
Definition dquote : string := String (ascii_of_nat 34) EmptyString.

(** [chalk] only colours its argument. *)
Definition logger_log (msg : string) : M unit := emit (LoggerLog msg).
Definition logger_error (msg : string) : M unit := emit (LoggerError msg).

Definition client_fetch_listCluster (w : World) : M ListClusterResult :=
  emit (ClientFetch ListCluster) ;; mret (api_listCluster w).

Definition client_fetch_createProject (w : World) (input : CreateProjectInput)
  : M CreateProjectResult :=
  emit (ClientFetch (CreateProject input)) ;; mret (api_createProject w input).

Definition migrateProject (w : World) (dryRun : bool) (env : IEnvironmentConfig)
  : M MigrateProjectResult :=
  emit (MigrateProject dryRun env) ;; mret (api_migrateProject w dryRun env).

(** Modelled from the spec: [getEnvironment] of the base command is not among
    the sources.  The Environment Store is a mapping from environment name to
    record, and [getEnvironment] looks the name up. *)
Definition getEnvironment (name : string) : M (option IEnvironmentConfig) :=
  λ s, (Return (store s !! name), s).

(** Modelled from the spec: [updateEnvironment] persists the record in the
    Environment Store, keyed by the environment name. *)
Definition updateEnvironment (name : string) (config : IEnvironmentConfig) : M unit :=
  λ s, (Return (), {| store := <[name := config]> (store s);
                      trace := trace s ++ [UpdateEnvironment name config] |}).

(** One latency measurement of [getCluster]. *)
Record Timing : Type := {
  latency : option Z;
  cluster : ICluster;
}.

(** [edges.map(async ({node}) => ...)] joined by [Promise.all]: every
    candidate is probed once, a rejected request gives the latency [null]. *)
Fixpoint dcTimers (w : World) (index : nat) (edges : list ICluster) : M (list Timing) :=
  match edges with
  | [] => mret []
  | node :: edges' =>
      emit (Fetch (pingUrl node)) ;;
      timings ← dcTimers w (S index) edges' ;
      mret ({| latency := probe w index (pingUrl node); cluster := node |} :: timings)
  end.

(** The measurements that [dcTimers] returns for the candidates, the first
    of them at position [index]. *)
Fixpoint timings (w : World) (index : nat) (edges : list ICluster) : list Timing :=
  match edges with
  | [] => []
  | node :: edges' =>
      {| latency := probe w index (pingUrl node); cluster := node |}
      :: timings w (S index) edges'
  end.

(** The events that a step adds to the trace. *)
Definition events {A} (m : M A) (s : State) : list Event :=
  drop (length (trace s)) (trace (m s).2).

(** A step is steady when, from every state, it has the same outcome, adds
    the same events and leaves the store as it is. *)
Definition steady {A} (m : M A) (outcome : Outcome A) (evs : list Event) : Prop :=
  ∀ s, m s = (outcome, {| store := store s; trace := trace s ++ evs |}).

Definition is_migration (e : Event) : bool :=
  match e with MigrateProject _ _ => true | _ => false end.

(** Events that are neither the migration request nor the refresh of the
    local files. *)
Definition before_migration (e : Event) : Prop :=
  is_migration e = false ∧ is_refresh e = false.

(** Events of resolving names and clusters: logs, prompts for a name or an
    alias, cluster listing, project creation and probes. *)
Definition is_resolution (e : Event) : bool :=
  match e with
  | LoggerLog _ | LoggerError _ | ClientFetch _ | Fetch _ | InquirerInput _ => true
  | _ => false
  end.

(** ** The host of [InitCommand.run]

    [run] of the init command works on the command line, on directories and
    files, and on the bundle of the created version. *)

(** An operation that may throw. *)
Inductive FileOp : Type :=
| MkdirpSync (dir : string)
| FetchBundle (url : string)
| ResponseBuffer
| WriteFileSync (file : string)
| OpenZip (file : string)
| ExtractAllTo (dir : string)
| ExtractEntryTo (entry dir : string)
| AppendFileSync (file content : string)
| Unlink (file : string)
| Copy (source target : string).

Record Host : Type := {
  (** [this.parse(InitCommand)]: the flags, the argument, and the [input] of
      the raw tokens *)
  flag_name : option string;
  flag_alias : option string;
  flag_account : option string;
  arg_name : option string;
  raw : list string;
  (** [this.getProjectRoot()], [path.resolve('')], [os.tmpdir()] *)
  projectRoot : string;
  cwd : string;
  tmpdir : string;
  (** [path.join], [randomName()], [uuid.v4()] and
      [String.prototype.toLowerCase], taken as they are *)
  path_join : list string → string;
  randomName : string;
  uuid_v4 : string;
  toLowerCase : string → string;
  (** the message of the error that an operation throws, if it throws *)
  failure : FileOp → option string;
}.

(** What [run] does, in order: the events of the commands, the operations
    on files, and the writes of an environment record into the store of a
    directory. *)
Inductive Effect : Type :=
| Observe (e : Event)
| Perform (op : FileOp)
| Persist (dir name : string) (config : IEnvironmentConfig).

(** The environment stores of the directories, and what has been done. *)
Record Disk : Type := {
  environments : gmap string (gmap string IEnvironmentConfig);
  effects : list Effect;
}.

Definition Script (A : Type) : Type := Disk → Outcome A * Disk.

(** The disk after more effects. *)
Definition extend (d : Disk) (more : list Effect) : Disk :=
  {| environments := environments d; effects := effects d ++ more |}.

(** The effects that a script adds. *)
Definition performed {A} (m : Script A) (d : Disk) : list Effect :=
  drop (length (effects d)) (effects (m d).2).

#[global] Instance Script_ret : MRet Script := λ A a d, (Return a, d).

#[global] Instance Script_bind : MBind Script := λ A B f m d,
  match m d with
  | (Return a, d') => f a d'
  | (Throw e, d') => (Throw e, d')
  end.

Definition effect (e : Effect) : Script unit :=
  λ d, (Return (), {| environments := environments d; effects := effects d ++ [e] |}).

Definition say (e : Event) : Script unit := effect (Observe e).

(** [this.error(message)] of an oclif command throws. *)
Definition error {A} (msg : string) : Script A := λ d, (Throw msg, d).

(** [try { body } catch (e) { handler(e.message) }] *)
Definition tryCatch {A} (body : Script A) (handler : string → Script A) : Script A :=
  λ d, match body d with
       | (Throw e, d') => handler e d'
       | returned => returned
       end.

Definition perform (h : Host) (op : FileOp) : Script unit :=
  effect (Perform op) ;;
  match failure h op with
  | Some msg => error msg
  | None => mret ()
  end.

(** A step of a command that does not use the environment store: its events
    are added in their order. *)
Definition observe {A} (m : M A) : Script A :=
  λ d, let '(outcome, s) := m {| store := ∅; trace := [] |} in
       (outcome, {| environments := environments d;
                    effects := effects d ++ (Observe <$> trace s) |}).

(** Modelled from the spec: [getEnvironment(name, ...)] of the base command
    looks the name up in the environment store of the project directory. *)
Definition getEnvironmentIn (dir name : string) : Script (option IEnvironmentConfig) :=
  λ d, (Return (environments d !! dir ≫= (.!! name)), d).

(** Modelled from the spec: [updateEnvironment(name, config, dir)] of the
    base command persists the record in the environment store of the
    directory, keyed by the name. *)
Definition updateEnvironmentIn (dir name : string) (config : IEnvironmentConfig)
    : Script unit :=
  λ d, (Return (),
        {| environments :=
             <[dir := <[name := config]> (default ∅ (environments d !! dir))]>
               (environments d);
           effects := effects d ++ [Persist dir name config] |}).

(** ** [InitCommand.getCluster] (src/commands/init.ts) *)

Module InitCommand.

(** [latency || Infinity]: [null] and [0] are falsy. *)
Definition orInfinity (latency : option Z) : JS.Number :=
  match latency with
  | Some z => if z =? 0 then JS.Infinity else JS.Num z
  | None => JS.Infinity
  end.

(** [(a, b) => (a.latency || Infinity) - (b.latency || Infinity)] *)
Definition compareLatency (a b : Timing) : JS.Number :=
  JS.sub (orInfinity (latency a)) (orInfinity (latency b)).

(** [dcTimers.sort(...)]: the order in which the candidates are offered. *)
Definition ranking (timings : list Timing) : list Timing :=
  JS.Array_sort compareLatency timings.

Definition showLatency (latency : option Z) : string :=
  match latency with
  | Some z => pretty z
  | None => "null"
  end.

Definition choice (t : Timing) : Choice :=
  {| choice_name :=
       cluster_alias (cluster t) +:+ ": " +:+ cluster_name (cluster t)
       +:+ " (latency: " +:+ showLatency (latency t) +:+ "ms)";
     choice_value := cluster t |}.

Definition getCluster (w : World) : M (option ICluster) :=
  emit (CliAction true) ;;
  result ← client_fetch_listCluster w ;
  let edges := listCluster_edges result in
  match edges with
  | [node] =>
      (* We only have one cluster, return immediately *)
      emit (CliAction false) ;;
      mret (Some node)
  | [] => mret None
  | _ =>
      (* Determine latencies *)
      timings ← dcTimers w 0 edges ;
      emit (CliAction false) ;;
      let choices := choice <$> ranking timings in
      emit (InquirerList choices) ;;
      mret (choice_value <$> choices !! inquirer_list w choices)
  end.

(** The order that the ranking is meant to have: ascending latency,
    candidates without latency last. *)
Definition ranked_before (a b : Timing) : Prop :=
  match latency a, latency b with
  | Some x, Some y => x ≤ y
  | Some _, None => True
  | None, Some _ => False
  | None, None => True
  end.

(** [alias = name.toLowerCase() + '-' + uuid.v4().substr(0, 8)] *)
Definition generatedAlias (h : Host) (name : string) : string :=
  toLowerCase h name +:+ "-" +:+ String.substring 0 8 (uuid_v4 h).

(** Lines 92-101: the name given as argument, or else as flag. *)
Definition givenName (h : Host) : option string :=
  if JS.truthy (arg_name h) then arg_name h else JS.or (flag_name h) None.

(** [input.raw.some((token) => ['--dir', '-d'].includes(token.input))] *)
Definition dirExplicitlySet (h : Host) : bool :=
  existsb (λ input, bool_decide (input ∈ ["--dir"; "-d"])) (raw h).

Definition readyMessage (project : ProjectNode) : string :=
  newline +:+ newline +:+ "Your GraphQL Server is ready: " +:+ newline +:+ newline
  +:+ "    " +:+ "Endpoint: " +:+ JS.template (λ s, s) (node_endpoint project) +:+ newline
  +:+ "    " +:+ "Name: " +:+ JS.template (λ s, s) (node_name project).

Definition helpMessage : string :=
  newline +:+ "Start exploring now..." +:+ newline
  +:+ "- Open console: slicknode console" +:+ newline
  +:+ "- Open playground: slicknode playground" +:+ newline
  +:+ newline
  +:+ "Find more help in the documentation: http://slicknode.com" +:+ newline.

Definition tmpFile (h : Host) (version : Version) : string :=
  path_join h [tmpdir h; JS.template (λ s, s) (version_id version) +:+ ".zip"].

Definition moduleCacheDir (h : Host) (targetDir : string) : string :=
  path_join h [targetDir; ".slicknode"; "cache"].

(** Lines 174-193: the bundle is downloaded, written to a temporary file
    and extracted into the cache directory and the project directory. *)
Definition extractBundle (h : Host) (targetDir : string) (version : Version)
    (bundle : string) : Script unit :=
  perform h (FetchBundle bundle) ;;
  tryCatch
    (perform h ResponseBuffer ;; perform h (WriteFileSync (tmpFile h version)))
    (λ e, error ("Could not write bundle to disk: " +:+ newline
                 +:+ "Message: " +:+ e)) ;;
  (* Unzip all module data to slicknode cache dir *)
  perform h (OpenZip (tmpFile h version)) ;;
  perform h (MkdirpSync (moduleCacheDir h targetDir)) ;;
  perform h (ExtractAllTo (moduleCacheDir h targetDir)) ;;
  perform h (ExtractEntryTo "slicknode.yml" targetDir).

(** The operations of lines 206-221. *)
Definition appendGitIgnore (h : Host) (targetDir : string) : FileOp :=
  AppendFileSync (path_join h [targetDir; ".gitignore"])
    ("# Slicknode cache data" +:+ newline +:+ ".slicknode" +:+ newline +:+ newline).

Definition copyConfig (h : Host) (targetDir : string) : FileOp :=
  Copy (path_join h [moduleCacheDir h targetDir; "slicknode.yml"])
       (path_join h [targetDir; "slicknode.yml"]).

(** Lines 206-234: what follows the write of the environment record. *)
Definition completeProject (h : Host) (targetDir : string) (project : ProjectNode)
    (version : Version) : Script unit :=
  (* Add cachefiles to gitignore *)
  perform h (appendGitIgnore h targetDir) ;;
  tryCatch
    (perform h (Unlink (tmpFile h version)))
    (λ e, say (LoggerLog ("Temporary file was not deleted: " +:+ e))) ;;
  (* Copy config *)
  perform h (copyConfig h targetDir) ;;
  say (LoggerLog (readyMessage project)) ;;
  say (LoggerLog helpMessage).

(** The record of lines 196-204. *)
Definition environment (project : ProjectNode) (version : Version) : IEnvironmentConfig :=
  {| env_endpoint := node_endpoint project;
     env_version := version_id version;
     env_alias := node_alias project;
     env_consoleUrl := node_consoleUrl project;
     env_playgroundUrl := node_playgroundUrl project;
     env_name := node_name project;
     env_id := node_id project |}.

Definition notInitialized : string :=
  "Project was created but could not be fully initialized, "
  +:+ "possibly because of no available capacity. "
  +:+ "Try to clone the project later.".

(** Lines 150-234: the body of the [try] block of [run]. *)
Definition initialize (h : Host) (targetDir : string) (result : CreateProjectResult)
    : Script unit :=
  say (CliAction true) ;;
  match createProject_node result with
  | None =>
      error (String.concat newline
               ("ERROR: Could not create project. Please try again later."
                :: (message <$> createProject_errors result)))
  | Some project =>
      match node_version project with
      | Some version =>
          match version_bundle version with
          | Some bundle =>
              if JS.truthy (Some bundle) then
                extractBundle h targetDir version bundle ;;
                (* Update environment *)
                updateEnvironmentIn targetDir "default" (environment project version) ;;
                completeProject h targetDir project version
              else error notInitialized
          | None => error notInitialized
          end
      | None => error notInitialized
      end
  end.

(** Lines 103-117: the directory of the project, created when a name is
    given and no token of the command line names a directory. *)
Definition resolveTargetDir (h : Host) : Script string :=
  match givenName h with
  | Some name =>
      if JS.truthy (Some name) && negb (dirExplicitlySet h) then
        let targetDir := path_join h [cwd h; name] in
        tryCatch
          (perform h (MkdirpSync targetDir))
          (λ e, error ("ERROR: Failed to create project directory " +:+ targetDir
                       +:+ ". " +:+ e)) ;;
        mret targetDir
      else mret (projectRoot h)
  | None => mret (projectRoot h)
  end.

(** Lines 119-125: the name and the alias of the creation request. *)
Definition projectName (h : Host) : string :=
  match givenName h with
  | Some name => if JS.truthy (Some name) then name else randomName h
  | None => randomName h
  end.

Definition projectAlias (h : Host) : string :=
  match flag_alias h with
  | Some alias => if JS.truthy (Some alias) then alias else generatedAlias h (projectName h)
  | None => generatedAlias h (projectName h)
  end.

Definition run (h : Host) (w : World) : Script unit :=
  (* Check if directory is already initialized *)
  env ← getEnvironmentIn (projectRoot h) "default" ;
  match env with
  | Some _ => error "The directory is already initialized as a slicknode project"
  | None =>
      (* Check for version updates *)
      if updateRequired w then mret ()
      (* Ensure authentication *)
      else if negb (authenticate w) then mret ()
      else
        targetDir ← resolveTargetDir h ;
        cluster ← observe (getCluster w) ;
        match cluster with
        | None =>
            error ("Could not load available clusters. "
                   +:+ "Make sure you have a working internet connection and try again.")
        | Some cluster =>
            say (CliAction true) ;;
            let input :=
              {| input_name := Some (projectName h);
                 input_alias := Some (projectAlias h);
                 input_cluster := cluster_id cluster;
                 input_account := JS.or (flag_account h) None |} in
            say (ClientFetch (CreateProject input)) ;;
            let result := api_createProject w input in
            say (CliAction false) ;;
            (* Load bundle *)
            tryCatch
              (initialize h targetDir result)
              (λ e, error ("Initialization failed: " +:+ e))
        end
  end.

(** The directory in which [run] sets the project up, and whether [run]
    creates it. *)
Definition createsDirectory (h : Host) : bool :=
  match givenName h with
  | Some name => JS.truthy (Some name) && negb (dirExplicitlySet h)
  | None => false
  end.

Definition targetDir (h : Host) : string :=
  match givenName h with
  | Some name => if createsDirectory h then path_join h [cwd h; name] else projectRoot h
  | None => projectRoot h
  end.

(** The conditions under which [run] goes on to resolve a cluster: the
    project directory has no [default] record, the client is up to date,
    the user is authenticated, and the creation of the directory, if any,
    does not throw. *)
Definition proceeds (h : Host) (w : World) (d : Disk) : Prop :=
  environments d !! projectRoot h ≫= (.!! "default") = None
  ∧ updateRequired w = false
  ∧ authenticate w = true
  ∧ (createsDirectory h = true → failure h (MkdirpSync (targetDir h)) = None).

(** [getCluster] as [run] calls it. *)
Definition clusterOutcome (w : World) : Outcome (option ICluster) * State :=
  getCluster w {| store := ∅; trace := [] |}.

(** The effects of [run] up to the resolution of the cluster. *)
Definition preparation (h : Host) (w : World) : list Effect :=
  (if createsDirectory h then [Perform (MkdirpSync (targetDir h))] else [])
  ++ (Observe <$> trace (clusterOutcome w).2).

(** The creation request of [run] for a cluster. *)
Definition request (h : Host) (cluster : ICluster) : CreateProjectInput :=
  {| input_name := Some (projectName h);
     input_alias := Some (projectAlias h);
     input_cluster := cluster_id cluster;
     input_account := JS.or (flag_account h) None |}.

(** The version and the bundle that [initialize] downloads, when
    [_.get(project, 'version.bundle')] is truthy. *)
Definition bundleOf (project : ProjectNode) : option (Version * string) :=
  match node_version project with
  | Some version =>
      match version_bundle version with
      | Some bundle => if JS.truthy (Some bundle) then Some (version, bundle) else None
      | None => None
      end
  | None => None
  end.

(** The effects of [completeProject] after the operation on [.gitignore]:
    a failing [unlink] is logged. *)
Definition unlinkEffects (h : Host) (version : Version) : list Effect :=
  Perform (Unlink (tmpFile h version)) ::
  match failure h (Unlink (tmpFile h version)) with
  | Some msg => [Observe (LoggerLog ("Temporary file was not deleted: " +:+ msg))]
  | None => []
  end.

(** The operations of [extractBundle], in their order. *)
Definition bundleOps (h : Host) (targetDir : string) (version : Version)
    (bundle : string) : list FileOp :=
  [FetchBundle bundle; ResponseBuffer; WriteFileSync (tmpFile h version);
   OpenZip (tmpFile h version); MkdirpSync (moduleCacheDir h targetDir);
   ExtractAllTo (moduleCacheDir h targetDir); ExtractEntryTo "slicknode.yml" targetDir].

End InitCommand.

(** ** [DeployCommand] (src/unnamed/part_000; the line numbers below are
    those of that file) *)

Module DeployCommand.

(** [ToNumber] of a latency: [null] converts to [0]. *)
Definition toNumber (latency : option Z) : Z := default 0 latency.

(** [(a, b) => a.latency < b.latency ? 1 : 0] *)
Definition compareLatency (a b : Timing) : JS.Number :=
  if toNumber (latency a) <? toNumber (latency b) then JS.Num 1 else JS.Num 0.

(** [timedDcs.filter((d) => d.latency !== null).sort(...)] *)
Definition availableDcs (timedDcs : list Timing) : list Timing :=
  JS.Array_sort compareLatency
    (filter (λ d, latency d ≠ None) timedDcs).

Definition getCluster (w : World) : M (option ICluster) :=
  result ← client_fetch_listCluster w ;
  let edges := listCluster_edges result in
  logger_log "Load available clusters" ;;
  match listCluster_errors result with
  | error :: _ =>
      logger_error ("Error loading clusters: " +:+ message error) ;;
      mret None
  | [] =>
      timedDcs ← dcTimers w 0 edges ;
      match availableDcs timedDcs with
      | d :: _ => mret (Some (cluster d))
      | [] => mret None
      end
  end.

(** The cluster that [getCluster] returns and the events that it adds, as
    functions of the world. *)
Definition selected (w : World) : option ICluster :=
  match listCluster_errors (api_listCluster w) with
  | _ :: _ => None
  | [] =>
      match availableDcs (timings w 0 (listCluster_edges (api_listCluster w))) with
      | d :: _ => Some (cluster d)
      | [] => None
      end
  end.

Definition clusterEvents (w : World) : list Event :=
  ClientFetch ListCluster :: LoggerLog "Load available clusters" ::
  match listCluster_errors (api_listCluster w) with
  | error :: _ => [LoggerError ("Error loading clusters: " +:+ message error)]
  | [] => (λ node, Fetch (pingUrl node)) <$> listCluster_edges (api_listCluster w)
  end.

(** [this.options.env || 'default'] *)
Definition envName (o : IDeployCommandOptions) : string :=
  match opt_env o with
  | Some env => if JS.truthy (Some env) then env else "default"
  | None => "default"
  end.

Definition show (v : option string) : string := JS.template (λ s, s) v.

(** Lines 374-385: the suggestions, made only when a [default] environment
    exists. *)
Definition suggestions (o : IDeployCommandOptions) (name : string)
    (defaultEnv : option IEnvironmentConfig) : option string * option string :=
  match defaultEnv with
  | Some defaultEnv =>
      (JS.or (opt_name o) (Some (show (env_name defaultEnv) +:+ " (" +:+ name +:+ ")")),
       JS.or (opt_alias o) (Some (show (env_alias defaultEnv) +:+ "-" +:+ name)))
  | None => (None, None)
  end.

Definition nameQuestion (suggestedName : option string) : Question :=
  {| question_name := "name";
     question_message := "Project name (as displayed in console):";
     question_default := suggestedName |}.

Definition aliasQuestion (suggestedAlias : option string) : Question :=
  {| question_name := "alias";
     question_message := "Project alias:";
     question_default := suggestedAlias |}.

(** Lines 386-425: the name and the alias of the new project.  In the
    interactive branch the answers of inquirer are spread over the
    suggestions. *)
Definition newNameAndAlias (o : IDeployCommandOptions) (w : World)
    (suggestedName suggestedAlias : option string)
    : M (option string * option string) :=
  if opt_force o then
    mret (suggestedName, suggestedAlias)
  else
    let valuePrompts :=
      (if negb (JS.truthy (opt_name o)) then [nameQuestion suggestedName] else [])
      ++ (if negb (JS.truthy (opt_alias o)) then [aliasQuestion suggestedAlias] else []) in
    emit (InquirerInput valuePrompts) ;;
    let answers := inquirer_input w valuePrompts in
    let values_name :=
      match answers !! "name" with Some v => Some v | None => suggestedName end in
    let values_alias :=
      match answers !! "alias" with Some v => Some v | None => suggestedAlias end in
    mret (values_name, values_alias).

(** The [variables] of the creation request (lines 437-444). *)
Definition variables (o : IDeployCommandOptions) (newName newAlias : option string)
    (cluster : ICluster) : CreateProjectInput :=
  {| input_name := newName;
     input_alias := newAlias;
     input_cluster := cluster_id cluster;
     input_account := JS.or (opt_account o) None |}.

(** The record built from the created project (lines 461-469). *)
Definition envConfig (project : ProjectNode) (version : Version) : IEnvironmentConfig :=
  {| env_endpoint := node_endpoint project;
     env_version := version_id version;
     env_alias := node_alias project;
     env_consoleUrl := node_consoleUrl project;
     env_playgroundUrl := node_playgroundUrl project;
     env_name := node_name project;
     env_id := node_id project |}.

(** Lines 427-471: cluster, remote creation, store write. *)
Definition createEnvironment (o : IDeployCommandOptions) (w : World)
    (name : string) (newName newAlias : option string) : M IEnvironmentConfig :=
  (* Determine data center *)
  cluster ← getCluster w ;
  match cluster with
  | None =>
      logger_error
        "There is currently no cluster with sufficient capacity available. Try again later." ;;
      throw "Error creating project"
  | Some cluster =>
      result ← client_fetch_createProject w (variables o newName newAlias cluster) ;
      match createProject_node result with
      | None =>
          logger_error "ERROR: Could not create project. Please try again later." ;;
          forEach (λ err, logger_error (message err)) (createProject_errors result) ;;
          throw "Error creating project"
      | Some project =>
          (* Update environment *)
          match node_version project with
          | None => throw "TypeError: Cannot read property 'id' of undefined"
          | Some version =>
              updateEnvironment name (envConfig project version) ;;
              mret (envConfig project version)
          end
      end
  end.

Definition getOrCreateEnvironment (o : IDeployCommandOptions) (w : World)
    : M IEnvironmentConfig :=
  let name := envName o in
  env ← getEnvironment name ;
  match env with
  | Some env => mret env
  | None =>
      (* We don't have project for this env yet, create one... *)
      logger_log ("Creating project for env " +:+ dquote +:+ name +:+ dquote) ;;
      defaultEnv ← getEnvironment "default" ;
      let '(suggestedName, suggestedAlias) := suggestions o name defaultEnv in
      '(newName, newAlias) ← newNameAndAlias o w suggestedName suggestedAlias ;
      createEnvironment o w name newName newAlias
  end.

(** [_.get(result, 'data.migrateProject.errors', []).filter((e) => e)] *)
Definition serverErrors (result : MigrateProjectResult) : list IProjectChangeError :=
  omap (λ e, e) (migrateProject_errors result).

(** The bundle of [data.migrateProject.node], when
    [!project || !project.version || !project.version.bundle] is false. *)
Definition deployedBundle (result : MigrateProjectResult) : option string :=
  match migrateProject_node result with
  | None => None
  | Some project =>
      match node_version project with
      | None => None
      | Some version =>
          if JS.truthy (version_bundle version) then version_bundle version else None
      end
  end.

(** The [reduce] of lines 334-338 over the object
    [{update: 0, add: 0, remove: 0}].  The object is a map from property
    name to number; the inherited properties of [Object.prototype] are
    left out. *)
Definition countChange (changeCounts : gmap string JS.Number) (change : Change)
    : gmap string JS.Number :=
  let key := JS.toLowerCase (change_type change) in
  <[key := JS.incr (changeCounts !! key)]> changeCounts.

Definition changeCounts (changes : list Change) : gmap string JS.Number :=
  foldl countChange
    (<["update" := JS.Num 0]> (<["add" := JS.Num 0]> (<["remove" := JS.Num 0]> ∅)))
    changes.

(** The number of change records whose type tag names the bucket [tag],
    the letter case of the tag set aside. *)
Definition bucketCount (tag : string) (changes : list Change) : Z :=
  Z.of_nat (length (filter
    (λ change, JS.toLowerCase (change_type change) = JS.toLowerCase tag) changes)).

(** [`${count} noun${count === 1 ? 's' : ''}`] *)
Definition counted (count : option JS.Number) (noun : string) : string :=
  JS.template JS.toString count +:+ " " +:+ noun
  +:+ (if bool_decide (count = Some (JS.Num 1)) then "s" else "").

(** The text of lines 340-343. *)
Definition summary (changes : gmap string JS.Number) : string :=
  "Changes deployed to the slicknode servers: " +:+ newline
  +:+ counted (changes !! "add") "addition" +:+ ", "
  +:+ counted (changes !! "update") "update" +:+ ", "
  +:+ counted (changes !! "remove") "removal".

(** Lines 302-345: what [run] does with the response of the migration. *)
Definition afterMigration (w : World) (result : MigrateProjectResult) : M unit :=
  match serverErrors result with
  | _ :: _ => emit (PrintErrors (serverErrors result))
  | [] =>
      match deployedBundle result with
      | None =>
          logger_error "The version was not deployed. Try again later." ;;
          forEach (λ error, logger_error ("Error: " +:+ message error))
            (migrate_errors result)
      | Some bundle =>
          (* Load project files from server *)
          emit (LoadProjectVersion bundle) ;;
          if negb (loadProjectVersion w bundle) then
            logger_error "Error loading project config from servers"
          else
            (* Create deployment summary *)
            let changes := changeCounts (migrateProject_changes result) in
            logger_log (summary changes) ;;
            logger_log "Deployment successful!"
      end
  end.

Fixpoint printValidationErrors (index : nat) (errors : list string) : M unit :=
  match errors with
  | [] => mret ()
  | error :: errors' =>
      logger_error ("  " +:+ pretty (index + 1)%nat +:+ ". " +:+ error +:+ newline) ;;
      printValidationErrors (S index) errors'
  end.

Definition run (o : IDeployCommandOptions) (w : World) : M unit :=
  (* Check if directory is initialized *)
  if negb (getConfig w) then
    logger_error ("Deployment failed:" +:+ newline) ;;
    logger_log ("  The directory is not a slicknode project. " +:+ newline
                +:+ "  Run slicknode init to initialize a new project.")
  else
    match validate w with
    | _ :: _ =>
        logger_error ("Project configuration has errors: " +:+ newline) ;;
        printValidationErrors 0 (validate w)
    | [] =>
        (* Check for version updates *)
        if updateRequired w then mret ()
        (* Ensure user is authenticate *)
        else if negb (authenticate w) then mret ()
        else
          (* Run migration *)
          env ← getOrCreateEnvironment o w ;
          (* Check if we have valid status *)
          if negb (loadAndPrintStatus w env) then mret ()
          else
            (* Confirm changes *)
            confirmed ←
              (if negb (opt_force o)
               then emit InquirerConfirm ;; mret (inquirer_confirm w)
               else mret true) ;
            if negb confirmed then logger_log "Deployment aborted"
            else
              result ← migrateProject w false env ;
              afterMigration w result
    end.

(** The events that [afterMigration] adds, as a function of the response. *)
Definition afterMigrationEvents (w : World) (result : MigrateProjectResult) : list Event :=
  match serverErrors result with
  | _ :: _ => [PrintErrors (serverErrors result)]
  | [] =>
      match deployedBundle result with
      | None =>
          LoggerError "The version was not deployed. Try again later."
          :: ((λ error, LoggerError ("Error: " +:+ message error)) <$> migrate_errors result)
      | Some bundle =>
          LoadProjectVersion bundle ::
          if loadProjectVersion w bundle
          then [LoggerLog (summary (changeCounts (migrateProject_changes result)));
                LoggerLog "Deployment successful!"]
          else [LoggerError "Error loading project config from servers"]
      end
  end.

(** The events that [run] adds once the environment is resolved. *)
Definition afterResolutionEvents (o : IDeployCommandOptions) (w : World)
    (env : IEnvironmentConfig) : list Event :=
  if loadAndPrintStatus w env then
    if opt_force o then
      MigrateProject false env :: afterMigrationEvents w (api_migrateProject w false env)
    else if inquirer_confirm w then
      InquirerConfirm :: MigrateProject false env
      :: afterMigrationEvents w (api_migrateProject w false env)
    else [InquirerConfirm; LoggerLog "Deployment aborted"]
  else [].

(** The checks of [run] that come before the resolution of the environment. *)
Definition ready (w : World) : Prop :=
  getConfig w = true ∧ validate w = [] ∧ updateRequired w = false ∧ authenticate w = true.

End DeployCommand.

(** ** Sample data *)

Module Sample.

Definition east : ICluster :=
  {| cluster_id := "Q2x1c3Rlcjox"; cluster_alias := "gcp.us-east1";
     cluster_name := "Google US East 1 (South Carolina)";
     pingUrl := "http://ping.us-east1.slicknode.com/" |}.

Definition west : ICluster :=
  {| cluster_id := "Q2x1c3Rlcjoy"; cluster_alias := "gcp.us-west1";
     cluster_name := "Google US West 1 (Oregon)";
     pingUrl := "http://ping.us-west1.slicknode.com/" |}.

Definition europe : ICluster :=
  {| cluster_id := "Q2x1c3Rlcjoz"; cluster_alias := "gcp.europe-west1";
     cluster_name := "Google Europe West 1 (Belgium)";
     pingUrl := "http://ping.europe-west1.slicknode.com/" |}.

Definition project : ProjectNode :=
  {| node_id := Some "234"; node_alias := Some "test-alias";
     node_name := Some "TestName"; node_endpoint := Some "http://testproject";
     node_consoleUrl := None; node_playgroundUrl := None;
     node_version :=
       Some {| version_bundle := Some "http://localhost/fakeversionbundle.zip";
               version_id := Some "someid" |} |}.

Definition environment : IEnvironmentConfig :=
  {| env_endpoint := Some "http://testproject"; env_version := Some "someid";
     env_alias := Some "test-alias"; env_consoleUrl := None;
     env_playgroundUrl := None; env_name := Some "TestName";
     env_id := Some "234" |}.

Definition noChanges : MigrateProjectResult :=
  {| migrateProject_node := Some project; migrateProject_changes := [];
     migrateProject_errors := []; migrate_errors := [] |}.

(** A world in which every call succeeds: the backend lists [clusters],
    the probe of the candidate at position [i] takes [latencies i]. *)
Definition world (clusters : list ICluster) (latencies : nat → option Z)
    (migration : MigrateProjectResult) : World :=
  {| api_listCluster := {| listCluster_edges := clusters; listCluster_errors := [] |};
     api_createProject := λ _,
       {| createProject_node := Some project; createProject_errors := [] |};
     api_migrateProject := λ _ _, migration;
     probe := λ i _, latencies i;
     inquirer_input := λ _, ∅;
     inquirer_list := λ _, 0%nat;
     inquirer_confirm := true;
     getConfig := true;
     validate := [];
     updateRequired := false;
     authenticate := true;
     loadAndPrintStatus := λ _, true;
     loadProjectVersion := λ _, true |}.

Definition options (force : bool) (name alias : option string)
    : IDeployCommandOptions :=
  {| opt_force := force; opt_env := None; opt_account := None;
     opt_alias := alias; opt_name := name |}.

Definition start (environments : gmap string IEnvironmentConfig) : State :=
  {| store := environments; trace := [] |}.

(** Two candidates, none of which answers the probe. *)
Definition unreachable : World :=
  world [east; west] (λ _, None) noChanges.

(** Two candidates, of which only the second answers. *)
Definition westOnly : World :=
  world [east; west] (λ i, if decide (i = 1%nat) then Some 42 else None) noChanges.

(** One candidate that answers the probe, and one that does not. *)
Definition single : World := world [east] (λ _, Some 12) noChanges.
Definition singleUnreachable : World := world [east] (λ _, None) noChanges.

Definition change (type : string) : Change :=
  {| change_type := type; change_description := "" |}.

(** A migration response with a [null] entry as its only error. *)
Definition nullError : World :=
  world [east] (λ _, Some 12)
    {| migrateProject_node := Some project; migrateProject_changes := [];
       migrateProject_errors := [None]; migrate_errors := [] |}.

(** A migration response without project node that reports an error. *)
Definition rejected : World :=
  world [east] (λ _, Some 12)
    {| migrateProject_node := None; migrateProject_changes := [];
       migrateProject_errors := [Some {| error_description := "Invalid schema" |}];
       migrate_errors := [] |}.

(** A migration response without project node and without errors. *)
Definition notDeployed : World :=
  world [east] (λ _, Some 12)
    {| migrateProject_node := None; migrateProject_changes := [];
       migrateProject_errors := [];
       migrate_errors := [{| message := "Internal error" |}] |}.

(** Three candidates: no answer, an answer within the same millisecond,
    an answer after five milliseconds. *)
Definition zeroLatency : World :=
  world [east; west; europe]
    (λ i, match i with 0%nat => None | 1%nat => Some 0 | _ => Some 5 end) noChanges.

(** Two candidates, the first of which is the slower one. *)
Definition slowFirst : World :=
  world [east; west] (λ i, match i with 0%nat => Some 5 | _ => Some 3 end) noChanges.

End Sample.

Module Extra.

(** A listing response that carries an error. *)
Definition listingError : World :=
  {| api_listCluster :=
       {| listCluster_edges := [Sample.east];
          listCluster_errors := [{| message := "Unauthorized" |}] |};
     api_createProject := api_createProject Sample.single;
     api_migrateProject := api_migrateProject Sample.single;
     probe := probe Sample.single;
     inquirer_input := inquirer_input Sample.single;
     inquirer_list := inquirer_list Sample.single;
     inquirer_confirm := true;
     getConfig := true;
     validate := [];
     updateRequired := false;
     authenticate := true;
     loadAndPrintStatus := loadAndPrintStatus Sample.single;
     loadProjectVersion := loadProjectVersion Sample.single |}.

(** A backend that lists no cluster. *)
Definition noCluster : World := Sample.world [] (λ _, None) Sample.noChanges.

(** Options of [deploy --force --env staging]. *)
Definition staging : IDeployCommandOptions :=
  {| opt_force := true; opt_env := Some "staging"; opt_account := None;
     opt_alias := None; opt_name := None |}.

(** A creation response whose project node has no version. *)
Definition projectWithoutVersion : ProjectNode :=
  {| node_id := Some "234"; node_alias := None; node_name := None;
     node_endpoint := None; node_consoleUrl := None; node_playgroundUrl := None;
     node_version := None |}.

Definition incompleteCreation : World :=
  {| api_listCluster := api_listCluster Sample.single;
     api_createProject := λ _,
       {| createProject_node := Some projectWithoutVersion; createProject_errors := [] |};
     api_migrateProject := api_migrateProject Sample.single;
     probe := probe Sample.single;
     inquirer_input := inquirer_input Sample.single;
     inquirer_list := inquirer_list Sample.single;
     inquirer_confirm := true;
     getConfig := true;
     validate := [];
     updateRequired := false;
     authenticate := true;
     loadAndPrintStatus := loadAndPrintStatus Sample.single;
     loadProjectVersion := loadProjectVersion Sample.single |}.

(** A project whose configuration has two validation errors. *)
Definition invalidConfiguration : World :=
  {| api_listCluster := api_listCluster Sample.single;
     api_createProject := api_createProject Sample.single;
     api_migrateProject := api_migrateProject Sample.single;
     probe := probe Sample.single;
     inquirer_input := inquirer_input Sample.single;
     inquirer_list := inquirer_list Sample.single;
     inquirer_confirm := true;
     getConfig := true;
     validate := ["Unknown type Foo"; "Module name missing"];
     updateRequired := false;
     authenticate := true;
     loadAndPrintStatus := loadAndPrintStatus Sample.single;
     loadProjectVersion := loadProjectVersion Sample.single |}.

(** A user who declines the confirmation. *)
Definition declining : World :=
  {| api_listCluster := api_listCluster Sample.single;
     api_createProject := api_createProject Sample.single;
     api_migrateProject := api_migrateProject Sample.single;
     probe := probe Sample.single;
     inquirer_input := inquirer_input Sample.single;
     inquirer_list := inquirer_list Sample.single;
     inquirer_confirm := false;
     getConfig := true;
     validate := [];
     updateRequired := false;
     authenticate := true;
     loadAndPrintStatus := loadAndPrintStatus Sample.single;
     loadProjectVersion := loadProjectVersion Sample.single |}.

(** A migration that succeeds, followed by a refresh that fails. *)
Definition refreshFails : World :=
  {| api_listCluster := api_listCluster Sample.single;
     api_createProject := api_createProject Sample.single;
     api_migrateProject := api_migrateProject Sample.single;
     probe := probe Sample.single;
     inquirer_input := inquirer_input Sample.single;
     inquirer_list := inquirer_list Sample.single;
     inquirer_confirm := true;
     getConfig := true;
     validate := [];
     updateRequired := false;
     authenticate := true;
     loadAndPrintStatus := loadAndPrintStatus Sample.single;
     loadProjectVersion := λ _, false |}.

Definition ask : IDeployCommandOptions := Sample.options false None None.
Definition force : IDeployCommandOptions := Sample.options true None None.

Definition initialized : State := Sample.start {["default" := Sample.environment]}.

(** [slicknode init --dir /projects/empty], with operations that throw as
    [failure] tells. *)
Definition host (failure : FileOp → option string) : Host :=
  {| flag_name := None; flag_alias := None; flag_account := None; arg_name := None;
     raw := ["--dir"; "/projects/empty"];
     projectRoot := "/projects/empty";
     cwd := "/home/user";
     tmpdir := "/tmp";
     path_join := String.concat "/";
     randomName := "Quick Fox";
     uuid_v4 := "110ec58a-a0f2-4ac4-8393-c866d813b8d1";
     toLowerCase := JS.toLowerCase;
     failure := failure |}.

(** [slicknode init Blog], run in [/home/user]. *)
Definition namedHost (failure : FileOp → option string) : Host :=
  {| flag_name := None; flag_alias := None; flag_account := None;
     arg_name := Some "Blog";
     raw := ["Blog"];
     projectRoot := "/home/user";
     cwd := "/home/user";
     tmpdir := "/tmp";
     path_join := String.concat "/";
     randomName := "Quick Fox";
     uuid_v4 := "110ec58a-a0f2-4ac4-8393-c866d813b8d1";
     toLowerCase := JS.toLowerCase;
     failure := failure |}.

Definition noFailure : FileOp → option string := λ _, None.

Definition blank : Disk := {| environments := ∅; effects := [] |}.

(** A backend that answers the creation request with an error. *)
Definition creationFails : World :=
  {| api_listCluster := api_listCluster Sample.single;
     api_createProject := λ _,
       {| createProject_node := None;
          createProject_errors := [{| message := "Error" |}] |};
     api_migrateProject := api_migrateProject Sample.single;
     probe := probe Sample.single;
     inquirer_input := inquirer_input Sample.single;
     inquirer_list := inquirer_list Sample.single;
     inquirer_confirm := true;
     getConfig := true;
     validate := [];
     updateRequired := false;
     authenticate := true;
     loadAndPrintStatus := loadAndPrintStatus Sample.single;
     loadProjectVersion := loadProjectVersion Sample.single |}.

(** The store of [/projects/empty] after an initialization. *)
Definition initializedDisk : Disk :=
  {| environments := {["/projects/empty" := {["default" := Sample.environment]}]};
     effects := [] |}.


(** A file system on which the bundle cannot be unpacked. *)
Definition corruptBundle : FileOp → option string :=
  λ op, match op with
        | OpenZip _ => Some "Invalid or unsupported zip format"
        | _ => None
        end.

(** A file system on which [.gitignore] cannot be written. *)
Definition gitIgnoreLocked : FileOp → option string :=
  λ op, match op with
        | AppendFileSync _ _ => Some "EACCES: permission denied"
        | _ => None
        end.


End Extra.

(** ** The monad *)

Lemma mret_run {A} (a : A) (s : State) : (mret a : M A) s = (Return a, s).
Proof. reflexivity. Qed.

Lemma mbind_run {A B} (m : M A) (f : A → M B) (s : State) :
  (m ≫= f) s =
  match m s with
  | (Return a, s') => f a s'
  | (Throw e, s') => (Throw e, s')
  end.
Proof. reflexivity. Qed.

Lemma emit_run (e : Event) (s : State) :
  emit e s = (Return (), {| store := store s; trace := trace s ++ [e] |}).
Proof. reflexivity. Qed.

(** Unfold the steps of a command at a state. *)
Ltac run_steps :=
  repeat (rewrite ?mbind_run, ?mret_run;
          unfold logger_log, logger_error, client_fetch_listCluster,
            client_fetch_createProject, migrateProject, getEnvironment,
            updateEnvironment, throw;
          rewrite ?emit_run; cbn [fst snd store trace]).

Lemma dcTimers_run (w : World) (edges : list ICluster) (index : nat) (s : State) :
  dcTimers w index edges s =
  (Return (timings w index edges),
   {| store := store s; trace := trace s ++ ((λ node, Fetch (pingUrl node)) <$> edges) |}).
Proof.
  revert index s. induction edges as [|node edges IH]; intros index s; cbn [dcTimers timings].
  - rewrite mret_run, app_nil_r. by destruct s.
  - rewrite mbind_run, emit_run, mbind_run, IH, mret_run. cbn [store trace fmap list_fmap].
    by rewrite <- app_assoc.
Qed.

Lemma forEach_logger_error {A} (f : A → string) (l : list A) (s : State) :
  forEach (λ x, emit (LoggerError (f x))) l s =
  (Return (), {| store := store s; trace := trace s ++ ((λ x, LoggerError (f x)) <$> l) |}).
Proof.
  revert s. induction l as [|x l IH]; intros s; cbn [forEach].
  - rewrite mret_run, app_nil_r. by destruct s.
  - rewrite mbind_run, emit_run, IH.
    cbn [store trace fmap list_fmap]. by rewrite <- app_assoc.
Qed.

(** ** Steady steps *)

Lemma steady_mret {A} (a : A) : steady (mret a : M A) (Return a) [].
Proof. intros s. rewrite mret_run, app_nil_r. by destruct s. Qed.


Lemma steady_emit (e : Event) : steady (emit e) (Return ()) [e].
Proof. intros s. apply emit_run. Qed.

Lemma steady_bind {A B} (m : M A) (f : A → M B) a evs1 r evs2 :
  steady m (Return a) evs1 → steady (f a) r evs2 →
  steady (m ≫= f) r (evs1 ++ evs2).
Proof.
  intros Hm Hf s. rewrite mbind_run, Hm, Hf. cbn [store trace].
  by rewrite <- app_assoc.
Qed.

Lemma steady_bind_throw {A B} (m : M A) (f : A → M B) e evs :
  steady m (Throw e) evs → steady (m ≫= f) (Throw e) evs.
Proof. intros Hm s. by rewrite mbind_run, Hm. Qed.

Lemma steady_dcTimers (w : World) (index : nat) (edges : list ICluster) :
  steady (dcTimers w index edges) (Return (timings w index edges))
    ((λ node, Fetch (pingUrl node)) <$> edges).
Proof. intros s. apply dcTimers_run. Qed.

Lemma steady_forEach_logger_error {A} (f : A → string) (l : list A) :
  steady (forEach (λ x, emit (LoggerError (f x))) l) (Return ())
    ((λ x, LoggerError (f x)) <$> l).
Proof. intros s. apply forEach_logger_error. Qed.

Lemma steady_events {A} (m : M A) r evs s : steady m r evs → events m s = evs.
Proof.
  intros H. unfold events. rewrite H. cbn [snd trace].
  by rewrite drop_app_length.
Qed.

(** ** [Array.prototype.sort] *)

Section SortFacts.
Context {A : Type} (comparefn : A → A → JS.Number).

Lemma sort_insert_perm (x : A) (l : list A) :
  JS.sort_insert comparefn x l ≡ₚ x :: l.
Proof.
  induction l as [|y l IH]; cbn [JS.sort_insert]; [done|].
  destruct (JS.gt0 (comparefn x y)); [|done].
  rewrite IH. apply perm_swap.
Qed.

Lemma Array_sort_perm (l : list A) : JS.Array_sort comparefn l ≡ₚ l.
Proof.
  induction l as [|x l IH]; cbn [JS.Array_sort]; [done|].
  by rewrite sort_insert_perm, IH.
Qed.

End SortFacts.

(** ** The probes *)

Lemma timings_lookup (w : World) (edges : list ICluster) (index i : nat) (t : Timing) :
  timings w index edges !! i = Some t →
  edges !! i = Some (cluster t)
  ∧ latency t = probe w (index + i) (pingUrl (cluster t)).
Proof.
  revert index i. induction edges as [|node edges IH]; intros index i; cbn [timings]; [done|].
  destruct i as [|i]; cbn [lookup list_lookup].
  - intros [= <-]. cbn. by rewrite Nat.add_0_r.
  - intros H. apply IH in H as [? ?]. split; [done|].
    by replace (index + S i)%nat with (S index + i)%nat by lia.
Qed.


Lemma timings_all_fail (w : World) (edges : list ICluster) (index : nat) :
  (∀ i node, edges !! i = Some node → probe w (index + i) (pingUrl node) = None) →
  filter (λ d, latency d ≠ None) (timings w index edges) = [].
Proof.
  revert index. induction edges as [|node edges IH]; intros index H; cbn [timings]; [done|].
  rewrite filter_cons_False.
  - apply IH. intros i n Hi.
    replace (S index + i)%nat with (index + S i)%nat by lia. by apply H.
  - cbn. intros Hne. apply Hne. specialize (H 0%nat node eq_refl).
    by rewrite Nat.add_0_r in H.
Qed.

(** ** [DeployCommand.getCluster] *)

Lemma getCluster_steady (w : World) :
  steady (DeployCommand.getCluster w)
    (Return (DeployCommand.selected w)) (DeployCommand.clusterEvents w).
Proof.
  intros s. unfold DeployCommand.getCluster, DeployCommand.selected,
    DeployCommand.clusterEvents.
  run_steps. destruct (listCluster_errors (api_listCluster w)) as [|error errors].
  - rewrite mbind_run, dcTimers_run. cbn [store trace].
    rewrite <- !app_assoc. cbn [app].
    by destruct (DeployCommand.availableDcs _).
  - run_steps. by rewrite <- !app_assoc.
Qed.

Lemma clusterEvents_resolution (w : World) :
  Forall (λ e, is_resolution e = true) (DeployCommand.clusterEvents w).
Proof.
  unfold DeployCommand.clusterEvents.
  repeat (apply Forall_cons; split; [done|]).
  destruct (listCluster_errors _).
  - apply Forall_fmap, Forall_true. done.
  - by repeat constructor.
Qed.

Lemma selected_reachable (w : World) (c : ICluster) :
  DeployCommand.selected w = Some c →
  ∃ i z, listCluster_edges (api_listCluster w) !! i = Some c
         ∧ probe w i (pingUrl c) = Some z.
Proof.
  unfold DeployCommand.selected, DeployCommand.availableDcs.
  destruct (listCluster_errors _); [|done].
  destruct (JS.Array_sort _ _) as [|d ds] eqn:Hsort; [done|].
  intros [= <-].
  assert (d ∈ filter (λ d, latency d ≠ None)
            (timings w 0 (listCluster_edges (api_listCluster w)))) as Hd.
  { rewrite <- (Array_sort_perm DeployCommand.compareLatency), Hsort. left. }
  apply list_elem_of_filter in Hd as [Hlat Hd].
  apply list_elem_of_lookup in Hd as [i Hi].
  apply timings_lookup in Hi as [Hedge Hprobe]. cbn in Hprobe.
  destruct (latency d) as [z|] eqn:Hz; [|done].
  by exists i, z.
Qed.

Lemma selected_all_fail (w : World) :
  (∀ i node, listCluster_edges (api_listCluster w) !! i = Some node →
             probe w i (pingUrl node) = None) →
  DeployCommand.selected w = None.
Proof.
  intros H. unfold DeployCommand.selected, DeployCommand.availableDcs.
  destruct (listCluster_errors _); [|done].
  by rewrite timings_all_fail.
Qed.

(** ** [DeployCommand.getOrCreateEnvironment] *)

Section CreateEnvironment.
Import DeployCommand.
Context (o : IDeployCommandOptions) (w : World) (name : string)
        (newName newAlias : option string).

Let noCapacity : Event :=
  LoggerError
    "There is currently no cluster with sufficient capacity available. Try again later.".

Lemma createEnvironment_no_cluster :
  selected w = None →
  steady (createEnvironment o w name newName newAlias)
    (Throw "Error creating project") (clusterEvents w ++ [noCapacity]).
Proof.
  intros Hsel s. unfold createEnvironment.
  rewrite mbind_run, getCluster_steady, Hsel. run_steps.
  by rewrite <- app_assoc.
Qed.

Lemma createEnvironment_no_node (c : ICluster) :
  selected w = Some c →
  createProject_node (api_createProject w (variables o newName newAlias c)) = None →
  steady (createEnvironment o w name newName newAlias)
    (Throw "Error creating project")
    (clusterEvents w
     ++ [ClientFetch (CreateProject (variables o newName newAlias c));
         LoggerError "ERROR: Could not create project. Please try again later."]
     ++ ((λ err, LoggerError (message err))
           <$> createProject_errors (api_createProject w (variables o newName newAlias c)))).
Proof.
  intros Hsel Hnode s. unfold createEnvironment.
  rewrite mbind_run, getCluster_steady, Hsel. run_steps. rewrite Hnode. run_steps.
  rewrite forEach_logger_error. cbn [store trace].
  by rewrite <- !app_assoc.
Qed.

Lemma createEnvironment_no_version (c : ICluster) (project : ProjectNode) :
  selected w = Some c →
  createProject_node (api_createProject w (variables o newName newAlias c)) = Some project →
  node_version project = None →
  steady (createEnvironment o w name newName newAlias)
    (Throw "TypeError: Cannot read property 'id' of undefined")
    (clusterEvents w ++ [ClientFetch (CreateProject (variables o newName newAlias c))]).
Proof.
  intros Hsel Hnode Hversion s. unfold createEnvironment.
  rewrite mbind_run, getCluster_steady, Hsel. run_steps. rewrite Hnode, Hversion.
  run_steps. by rewrite <- !app_assoc.
Qed.

Lemma createEnvironment_success (c : ICluster) (project : ProjectNode) (version : Version)
    (s : State) :
  selected w = Some c →
  createProject_node (api_createProject w (variables o newName newAlias c)) = Some project →
  node_version project = Some version →
  createEnvironment o w name newName newAlias s =
  (Return (envConfig project version),
   {| store := <[name := envConfig project version]> (store s);
      trace := trace s ++ clusterEvents w
               ++ [ClientFetch (CreateProject (variables o newName newAlias c));
                   UpdateEnvironment name (envConfig project version)] |}).
Proof.
  intros Hsel Hnode Hversion. unfold createEnvironment.
  rewrite mbind_run, getCluster_steady, Hsel. run_steps. rewrite Hnode, Hversion.
  run_steps. by rewrite <- !app_assoc.
Qed.
End CreateEnvironment.

Lemma events_intro {A} (m : M A) (s s' : State) (r : Outcome A) (evs : list Event) :
  m s = (r, s') → trace s' = trace s ++ evs → events m s = evs.
Proof.
  intros Hm Htrace. unfold events. rewrite Hm. cbn [snd].
  by rewrite Htrace, drop_app_length.
Qed.

Section NewNameAndAlias.
Import DeployCommand.
Context (o : IDeployCommandOptions) (w : World)
        (suggestedName suggestedAlias : option string).

Lemma newNameAndAlias_forced :
  opt_force o = true →
  steady (newNameAndAlias o w suggestedName suggestedAlias)
    (Return (suggestedName, suggestedAlias)) [].
Proof. intros Hforce. unfold newNameAndAlias. rewrite Hforce. apply steady_mret. Qed.

Lemma newNameAndAlias_steady :
  ∃ names evs,
    steady (newNameAndAlias o w suggestedName suggestedAlias) (Return names) evs
    ∧ Forall (λ e, is_resolution e = true) evs
    ∧ (opt_force o = true →
       names = (suggestedName, suggestedAlias) ∧ evs = []).
Proof.
  destruct (opt_force o) eqn:Hforce.
  - exists (suggestedName, suggestedAlias), []. split; [|by split].
    by apply newNameAndAlias_forced.
  - unfold newNameAndAlias. rewrite Hforce. eexists _, [_]. split; [|split].
    + eapply (steady_bind _ _ () [_] _ []); [apply steady_emit|apply steady_mret].
    + by repeat constructor.
    + done.
Qed.
End NewNameAndAlias.

(** The creation path of [getOrCreateEnvironment]: the log line, the name
    and the alias, then [createEnvironment]. *)
Lemma getOrCreateEnvironment_create (o : IDeployCommandOptions) (w : World) (s : State) :
  store s !! DeployCommand.envName o = None →
  ∃ names evs,
    DeployCommand.getOrCreateEnvironment o w s =
      DeployCommand.createEnvironment o w (DeployCommand.envName o) names.1 names.2
        {| store := store s; trace := trace s ++ evs |}
    ∧ Forall (λ e, is_resolution e = true) evs
    ∧ (opt_force o = true →
       names = DeployCommand.suggestions o (DeployCommand.envName o) (store s !! "default")
       ∧ Forall (λ e, is_prompt e = false) evs).
Proof.
  intros Hnone. unfold DeployCommand.getOrCreateEnvironment.
  run_steps. rewrite Hnone. run_steps.
  destruct (DeployCommand.suggestions _ _ _) as [suggestedName suggestedAlias].
  destruct (newNameAndAlias_steady o w suggestedName suggestedAlias)
    as (names & evs & Hsteady & Hres & Hforced).
  exists names, (LoggerLog ("Creating project for env " +:+ dquote
                            +:+ DeployCommand.envName o +:+ dquote) :: evs).
  rewrite mbind_run, Hsteady. cbn [store trace]. destruct names as [newName newAlias].
  rewrite <- app_assoc. split; [done|]. split.
  - by constructor.
  - intros Hforce. destruct (Hforced Hforce) as [-> ->]. split; [done|].
    by repeat constructor.
Qed.

Lemma resolution_not_write (e : Event) : is_resolution e = true → is_store_write e = false.
Proof. by destruct e. Qed.


(** Every way in which the creation path ends. *)
Lemma getOrCreateEnvironment_cases (o : IDeployCommandOptions) (w : World) (s : State) :
  store s !! DeployCommand.envName o = None →
  ∃ names evs,
    Forall (λ e, is_resolution e = true) evs
    ∧ (opt_force o = true →
       names = DeployCommand.suggestions o (DeployCommand.envName o) (store s !! "default")
       ∧ Forall (λ e, is_prompt e = false) evs)
    ∧ match DeployCommand.selected w with
      | None =>
          DeployCommand.getOrCreateEnvironment o w s =
          (Throw "Error creating project",
           {| store := store s;
              trace := trace s ++ evs ++ DeployCommand.clusterEvents w
                ++ [LoggerError
                      "There is currently no cluster with sufficient capacity available. Try again later."] |})
      | Some c =>
          let input := DeployCommand.variables o names.1 names.2 c in
          match createProject_node (api_createProject w input) with
          | None =>
              DeployCommand.getOrCreateEnvironment o w s =
              (Throw "Error creating project",
               {| store := store s;
                  trace := trace s ++ evs ++ DeployCommand.clusterEvents w
                    ++ [ClientFetch (CreateProject input);
                        LoggerError "ERROR: Could not create project. Please try again later."]
                    ++ ((λ err, LoggerError (message err))
                          <$> createProject_errors (api_createProject w input)) |})
          | Some project =>
              match node_version project with
              | None =>
                  DeployCommand.getOrCreateEnvironment o w s =
                  (Throw "TypeError: Cannot read property 'id' of undefined",
                   {| store := store s;
                      trace := trace s ++ evs ++ DeployCommand.clusterEvents w
                        ++ [ClientFetch (CreateProject input)] |})
              | Some version =>
                  DeployCommand.getOrCreateEnvironment o w s =
                  (Return (DeployCommand.envConfig project version),
                   {| store := <[DeployCommand.envName o :=
                                   DeployCommand.envConfig project version]> (store s);
                      trace := trace s ++ evs ++ DeployCommand.clusterEvents w
                        ++ [ClientFetch (CreateProject input);
                            UpdateEnvironment (DeployCommand.envName o)
                              (DeployCommand.envConfig project version)] |})
              end
          end
      end.
Proof.
  intros Hnone.
  destruct (getOrCreateEnvironment_create o w s Hnone) as (names & evs & -> & Hres & Hforced).
  exists names, evs. split; [done|]. split; [done|].
  destruct (DeployCommand.selected w) as [c|] eqn:Hsel.
  - cbn zeta.
    destruct (createProject_node _) as [project|] eqn:Hnode;
      [destruct (node_version project) as [version|] eqn:Hversion|].
    + rewrite (createEnvironment_success _ _ _ _ _ c project version) by done.
      cbn [store trace]. by rewrite <- !app_assoc.
    + rewrite (createEnvironment_no_version _ _ _ _ _ c project) by done.
      cbn [store trace]. by rewrite <- !app_assoc.
    + rewrite (createEnvironment_no_node _ _ _ _ _ c) by done.
      cbn [store trace]. by rewrite <- !app_assoc.
  - rewrite createEnvironment_no_cluster by done.
    cbn [store trace]. by rewrite <- !app_assoc.
Qed.

Lemma clusterEvents_no_write (w : World) :
  Forall (λ e, is_store_write e = false) (DeployCommand.clusterEvents w).
Proof.
  eapply Forall_impl; [apply clusterEvents_resolution|]. apply resolution_not_write.
Qed.

Lemma getOrCreateEnvironment_existing
    (o : IDeployCommandOptions) (w : World) (s : State) (record : IEnvironmentConfig) :
  store s !! DeployCommand.envName o = Some record →
  DeployCommand.getOrCreateEnvironment o w s = (Return record, s).
Proof.
  intros Hsome. unfold DeployCommand.getOrCreateEnvironment. run_steps. by rewrite Hsome.
Qed.

(** C7: when the environment name has a record in the store,
    [getOrCreateEnvironment] returns that record and leaves the state as it
    is: it adds no event, so there is no cluster listing, no probe and no
    project creation. *)
Theorem existing_environment_returned
    (o : IDeployCommandOptions) (w : World) (s : State) (record : IEnvironmentConfig) :
  store s !! DeployCommand.envName o = Some record →
  DeployCommand.getOrCreateEnvironment o w s = (Return record, s)
  ∧ events (DeployCommand.getOrCreateEnvironment o w) s = []
  ∧ Forall (λ e, is_network e = false)
      (events (DeployCommand.getOrCreateEnvironment o w) s).
Proof.
  intros Hsome.
  pose proof (getOrCreateEnvironment_existing o w s record Hsome) as Hrun.
  assert (events (DeployCommand.getOrCreateEnvironment o w) s = []) as Hevents.
  { eapply events_intro; [exact Hrun|]. by rewrite app_nil_r. }
  rewrite Hevents. by repeat split.
Qed.

Lemma existing_environment_returned_witness :
  store (Sample.start {["default" := Sample.environment]})
    !! DeployCommand.envName (Sample.options false None None) = Some Sample.environment
  ∧ DeployCommand.getOrCreateEnvironment (Sample.options false None None)
      Sample.single
      (Sample.start {["default" := Sample.environment]})
    = (Return Sample.environment, Sample.start {["default" := Sample.environment]}).
Proof.
  split; [reflexivity|].
  apply (existing_environment_returned (Sample.options false None None)
           Sample.single
           (Sample.start {["default" := Sample.environment]}) Sample.environment).
  reflexivity.
Defined.

(** C4: on the creation path of [getOrCreateEnvironment], when cluster
    resolution yields no cluster or the creation response has no project
    node, the resolver throws, the store is the one it started from and no
    store write is among its events.  More generally the store is written
    only when the resolver returns, and then the write is its last event,
    right after the creation request whose response carried the project node
    and its version. *)
Theorem no_partial_environment_record
    (o : IDeployCommandOptions) (w : World) (s : State) :
  store s !! DeployCommand.envName o = None →
  let resolve := DeployCommand.getOrCreateEnvironment o w in
  (((DeployCommand.getCluster w s).1 = Return None
    ∨ (∀ input, createProject_node (api_createProject w input) = None)) →
   (resolve s).1 = Throw "Error creating project"
   ∧ store (resolve s).2 = store s
   ∧ Forall (λ e, is_store_write e = false) (events resolve s))
  ∧ ((∀ config, (resolve s).1 ≠ Return config) →
     store (resolve s).2 = store s
     ∧ Forall (λ e, is_store_write e = false) (events resolve s))
  ∧ (∀ config, (resolve s).1 = Return config →
     ∃ input project version evs,
       createProject_node (api_createProject w input) = Some project
       ∧ node_version project = Some version
       ∧ config = DeployCommand.envConfig project version
       ∧ store (resolve s).2 = <[DeployCommand.envName o := config]> (store s)
       ∧ events resolve s =
           evs ++ [ClientFetch (CreateProject input);
                   UpdateEnvironment (DeployCommand.envName o) config]
       ∧ Forall (λ e, is_store_write e = false) evs).
Proof.
  intros Hnone resolve. subst resolve.
  destruct (getOrCreateEnvironment_cases o w s Hnone) as (names & evs & Hres & _ & Hcases).
  assert (Forall (λ e, is_store_write e = false) evs) as Hevs.
  { eapply Forall_impl; [exact Hres|]. apply resolution_not_write. }
  pose proof (clusterEvents_no_write w) as Hcluster.
  rewrite getCluster_steady. cbn [fst].
  destruct (DeployCommand.selected w) as [c|] eqn:Hsel; cbn zeta in Hcases.
  - destruct (createProject_node _) as [project|] eqn:Hnode;
      [destruct (node_version project) as [version|] eqn:Hversion|].
    + erewrite (events_intro _ _ _ _ _ Hcases) by reflexivity. rewrite Hcases. cbn [fst snd store].
      split; [|split].
      * intros [[=]|Hall]. by rewrite Hall in Hnode.
      * intros Hne. by destruct (Hne (DeployCommand.envConfig project version)).
      * intros config [= <-].
        exists (DeployCommand.variables o names.1 names.2 c), project, version,
          (evs ++ DeployCommand.clusterEvents w).
        repeat split; try done.
        -- by rewrite <- app_assoc.
        -- by apply Forall_app.
    + erewrite (events_intro _ _ _ _ _ Hcases) by reflexivity. rewrite Hcases. cbn [fst snd store].
      assert (Forall (λ e, is_store_write e = false)
                (evs ++ DeployCommand.clusterEvents w
                 ++ [ClientFetch (CreateProject (DeployCommand.variables o names.1 names.2 c))]))
        as Hall by (rewrite !Forall_app; repeat split; try done; by repeat constructor).
      split; [|split]; [|done|done].
      intros [[=]|Hnodes]. by rewrite Hnodes in Hnode.
    + erewrite (events_intro _ _ _ _ _ Hcases) by reflexivity. rewrite Hcases. cbn [fst snd store].
      assert (Forall (λ e, is_store_write e = false)
                (evs ++ DeployCommand.clusterEvents w
                 ++ [ClientFetch (CreateProject (DeployCommand.variables o names.1 names.2 c));
                     LoggerError "ERROR: Could not create project. Please try again later."]
                 ++ ((λ err, LoggerError (message err))
                       <$> createProject_errors
                             (api_createProject w (DeployCommand.variables o names.1 names.2 c)))))
        as Hall.
      { rewrite !Forall_app. repeat split; try done; [by repeat constructor|].
        apply Forall_fmap, Forall_true. done. }
      by repeat split.
  - erewrite (events_intro _ _ _ _ _ Hcases) by reflexivity. rewrite Hcases. cbn [fst snd store].
    assert (Forall (λ e, is_store_write e = false)
              (evs ++ DeployCommand.clusterEvents w
               ++ [LoggerError
                     "There is currently no cluster with sufficient capacity available. Try again later."]))
      as Hall by (rewrite !Forall_app; repeat split; try done; by repeat constructor).
    by repeat split.
Qed.

Lemma no_partial_environment_record_witness :
  store (Sample.start ∅) !! DeployCommand.envName (Sample.options true None None) = None
  ∧ (DeployCommand.getCluster Sample.unreachable (Sample.start ∅)).1 = Return None
  ∧ (DeployCommand.getOrCreateEnvironment (Sample.options true None None)
       Sample.unreachable (Sample.start ∅)).1 = Throw "Error creating project"
  ∧ store (DeployCommand.getOrCreateEnvironment (Sample.options true None None)
             Sample.unreachable (Sample.start ∅)).2 = store (Sample.start ∅)
  ∧ (DeployCommand.getOrCreateEnvironment (Sample.options true None None)
       Sample.single (Sample.start ∅)).1 = Return Sample.environment
  ∧ store (DeployCommand.getOrCreateEnvironment (Sample.options true None None)
             Sample.single (Sample.start ∅)).2
    = <["default" := Sample.environment]> (store (Sample.start ∅)).
Proof.
  assert (store (Sample.start ∅)
            !! DeployCommand.envName (Sample.options true None None) = None) as Hnone
    by reflexivity.
  assert ((DeployCommand.getCluster Sample.unreachable (Sample.start ∅)).1 = Return None)
    as Hcluster by reflexivity.
  assert ((DeployCommand.getOrCreateEnvironment (Sample.options true None None)
             Sample.single (Sample.start ∅)).1 = Return Sample.environment)
    as Hcreated by reflexivity.
  split; [exact Hnone|]. split; [exact Hcluster|].
  destruct (no_partial_environment_record (Sample.options true None None)
              Sample.unreachable (Sample.start ∅) Hnone) as [Hfail _].
  destruct (Hfail (or_introl Hcluster)) as (Hthrow & Hstore & _).
  split; [exact Hthrow|]. split; [exact Hstore|]. split; [exact Hcreated|].
  destruct (no_partial_environment_record (Sample.options true None None)
              Sample.single (Sample.start ∅) Hnone) as (_ & _ & Hwrite).
  destruct (Hwrite Sample.environment Hcreated)
    as (input & project & version & evs & _ & _ & _ & Hstored & _).
  exact Hstored.
Defined.

(** C10: a cluster returned by [DeployCommand.getCluster] is a candidate of
    the list whose probe resolved (its latency is not [null]); when the
    probe of every candidate fails, [getCluster] returns [null]; and on
    [null] the caller [getOrCreateEnvironment] reports that no cluster has
    capacity and throws, without writing the store. *)
Theorem deploy_cluster_is_reachable (w : World) (s : State) :
  (∀ c, (DeployCommand.getCluster w s).1 = Return (Some c) →
        ∃ i z, listCluster_edges (api_listCluster w) !! i = Some c
               ∧ probe w i (pingUrl c) = Some z)
  ∧ ((∀ i node, listCluster_edges (api_listCluster w) !! i = Some node →
                probe w i (pingUrl node) = None) →
     (DeployCommand.getCluster w s).1 = Return None)
  ∧ (∀ o, store s !! DeployCommand.envName o = None →
          (DeployCommand.getCluster w s).1 = Return None →
          (DeployCommand.getOrCreateEnvironment o w s).1 = Throw "Error creating project"
          ∧ store (DeployCommand.getOrCreateEnvironment o w s).2 = store s
          ∧ last (trace (DeployCommand.getOrCreateEnvironment o w s).2) =
              Some (LoggerError
                "There is currently no cluster with sufficient capacity available. Try again later.")).
Proof.
  pose proof (getCluster_steady w s) as Hcluster.
  apply (f_equal fst) in Hcluster. cbn [fst] in Hcluster.
  split; [|split].
  - intros c Hsel. rewrite Hcluster in Hsel. injection Hsel as Hsel.
    by apply selected_reachable.
  - intros Hfail. rewrite Hcluster. f_equal. by apply selected_all_fail.
  - intros o Hnone Hsel. rewrite Hcluster in Hsel. injection Hsel as Hsel.
    destruct (getOrCreateEnvironment_cases o w s Hnone) as (names & evs & _ & _ & Hcases).
    rewrite Hsel in Hcases. rewrite Hcases. cbn [fst snd store trace].
    split; [done|]. split; [done|]. rewrite !app_assoc. apply last_snoc.
Qed.

Lemma deploy_cluster_is_reachable_witness :
  (DeployCommand.getCluster Sample.westOnly (Sample.start ∅)).1 = Return (Some Sample.west)
  ∧ (∃ i z, listCluster_edges (api_listCluster Sample.westOnly) !! i = Some Sample.west
            ∧ probe Sample.westOnly i (pingUrl Sample.west) = Some z)
  ∧ (DeployCommand.getCluster Sample.unreachable (Sample.start ∅)).1 = Return None
  ∧ (DeployCommand.getOrCreateEnvironment (Sample.options true None None)
       Sample.unreachable (Sample.start ∅)).1 = Throw "Error creating project".
Proof.
  split; [reflexivity|].
  destruct (deploy_cluster_is_reachable Sample.westOnly (Sample.start ∅)) as [Hreach _].
  split; [apply Hreach; reflexivity|].
  destruct (deploy_cluster_is_reachable Sample.unreachable (Sample.start ∅))
    as (_ & Hfail & Hcaller).
  assert (∀ i node,
            listCluster_edges (api_listCluster Sample.unreachable) !! i = Some node →
            probe Sample.unreachable i (pingUrl node) = None) as Hprobes
    by (intros i node _; reflexivity).
  split; [exact (Hfail Hprobes)|].
  assert (store (Sample.start ∅)
            !! DeployCommand.envName (Sample.options true None None) = None) as Hnone
    by reflexivity.
  exact (proj1 (Hcaller (Sample.options true None None) Hnone (Hfail Hprobes))).
Defined.

Lemma clusterEvents_Forall (P : Event → Prop) (w : World) :
  P (ClientFetch ListCluster) → (∀ msg, P (LoggerLog msg)) →
  (∀ msg, P (LoggerError msg)) → (∀ url, P (Fetch url)) →
  Forall P (DeployCommand.clusterEvents w).
Proof.
  intros Hlist Hlog Herror Hfetch. unfold DeployCommand.clusterEvents.
  repeat (apply Forall_cons; split; [done|]).
  destruct (listCluster_errors _).
  - apply Forall_fmap, Forall_true. intros node. apply Hfetch.
  - by repeat constructor.
Qed.

(** In forced mode [getOrCreateEnvironment] never prompts. *)
Lemma forced_no_prompt (o : IDeployCommandOptions) (w : World) (s : State) :
  opt_force o = true →
  Forall (λ e, is_prompt e = false) (events (DeployCommand.getOrCreateEnvironment o w) s).
Proof.
  intros Hforce.
  destruct (store s !! DeployCommand.envName o) as [record|] eqn:Hlookup.
  - rewrite (events_intro _ _ _ _ [] (getOrCreateEnvironment_existing o w s record Hlookup))
      by (by rewrite app_nil_r).
    constructor.
  - destruct (getOrCreateEnvironment_cases o w s Hlookup) as (names & evs & _ & Hforced & Hcases).
    destruct (Hforced Hforce) as [_ Hevs].
    assert (Forall (λ e, is_prompt e = false) (DeployCommand.clusterEvents w)) as Hcluster
      by (by apply clusterEvents_Forall).
    destruct (DeployCommand.selected w) as [c|]; cbn zeta in Hcases;
      [destruct (createProject_node _) as [project|];
       [destruct (node_version project) as [version|]|]|];
      erewrite (events_intro _ _ _ _ _ Hcases) by reflexivity;
      rewrite !Forall_app; repeat split; try done; try (by repeat constructor).
    apply Forall_fmap, Forall_true. done.
Qed.


(** C3: in forced mode and without a [default] record, the overrides
    [--name] and [--alias] do not reach the creation request: the new
    project is created with an undefined name and an undefined alias. *)
Theorem forced_overrides_dropped_without_default :
  events
    (DeployCommand.getOrCreateEnvironment
       (Sample.options true (Some "My Project") (Some "my-project"))
       Sample.single)
    (Sample.start ∅)
  = [LoggerLog ("Creating project for env " +:+ dquote +:+ "default" +:+ dquote);
     ClientFetch ListCluster;
     LoggerLog "Load available clusters";
     Fetch "http://ping.us-east1.slicknode.com/";
     ClientFetch (CreateProject
       {| input_name := None; input_alias := None;
          input_cluster := "Q2x1c3Rlcjox"; input_account := None |});
     UpdateEnvironment "default" Sample.environment].
Proof. vm_compute. reflexivity. Qed.

(** ** A single candidate *)

Lemma init_getCluster_single (w : World) (s : State) (node : ICluster) :
  listCluster_edges (api_listCluster w) = [node] →
  InitCommand.getCluster w s =
  (Return (Some node),
   {| store := store s;
      trace := trace s ++ [CliAction true; ClientFetch ListCluster; CliAction false] |}).
Proof.
  intros Hedges. unfold InitCommand.getCluster. run_steps. rewrite Hedges. run_steps.
  by rewrite <- !app_assoc.
Qed.

(** C2: for a list of exactly one candidate, [InitCommand.getCluster]
    returns the candidate at once, after the listing request and without a
    probe.  [DeployCommand.getCluster] (with no error in the listing
    response) probes the candidate once and returns it when the probe
    resolves, [null] when it does not. *)
Theorem single_candidate (w : World) (s : State) (node : ICluster) :
  listCluster_edges (api_listCluster w) = [node] →
  (InitCommand.getCluster w s).1 = Return (Some node)
  ∧ events (InitCommand.getCluster w) s =
      [CliAction true; ClientFetch ListCluster; CliAction false]
  ∧ Forall (λ e, is_probe e = false) (events (InitCommand.getCluster w) s)
  ∧ (listCluster_errors (api_listCluster w) = [] →
     (DeployCommand.getCluster w s).1 =
       Return (match probe w 0 (pingUrl node) with Some _ => Some node | None => None end)
     ∧ events (DeployCommand.getCluster w) s =
         [ClientFetch ListCluster; LoggerLog "Load available clusters"; Fetch (pingUrl node)]).
Proof.
  intros Hedges.
  pose proof (init_getCluster_single w s node Hedges) as Hinit.
  rewrite (events_intro _ _ _ _ _ Hinit eq_refl), Hinit. cbn [fst].
  split; [done|]. split; [done|]. split; [by repeat constructor|].
  intros Herrors.
  rewrite (steady_events _ _ _ s (getCluster_steady w)), getCluster_steady. cbn [fst].
  unfold DeployCommand.selected, DeployCommand.clusterEvents, DeployCommand.availableDcs.
  rewrite Herrors, Hedges. cbn [timings fmap list_fmap]. split; [|done].
  destruct (probe w 0 (pingUrl node)) as [z|] eqn:Hprobe.
  - rewrite filter_cons_True by (cbn; congruence). by rewrite filter_nil.
  - rewrite filter_cons_False by (cbn; congruence). by rewrite filter_nil.
Qed.

Lemma single_candidate_witness :
  listCluster_edges (api_listCluster Sample.single) = [Sample.east]
  ∧ (InitCommand.getCluster Sample.single (Sample.start ∅)).1 = Return (Some Sample.east)
  ∧ events (DeployCommand.getCluster Sample.single) (Sample.start ∅) =
      [ClientFetch ListCluster; LoggerLog "Load available clusters";
       Fetch (pingUrl Sample.east)].
Proof.
  split; [reflexivity|].
  destruct (single_candidate Sample.single (Sample.start ∅) Sample.east eq_refl)
    as (Hinit & _ & _ & Hdeploy).
  split; [exact Hinit|]. exact (proj2 (Hdeploy eq_refl)).
Defined.

(** C2 fails for [DeployCommand.getCluster]: the single candidate is probed,
    and it is not selected when the probe fails. *)
Lemma deploy_probes_single_candidate :
  listCluster_edges (api_listCluster Sample.singleUnreachable) = [Sample.east]
  ∧ (DeployCommand.getCluster Sample.singleUnreachable (Sample.start ∅)).1 = Return None
  ∧ events (DeployCommand.getCluster Sample.singleUnreachable) (Sample.start ∅) =
      [ClientFetch ListCluster; LoggerLog "Load available clusters";
       Fetch "http://ping.us-east1.slicknode.com/"].
Proof. repeat split. Qed.

(** ** The change summary *)

Lemma countChange_lookup (counts : gmap string JS.Number) (change : Change) (key : string) :
  DeployCommand.countChange counts change !! key =
  if decide (JS.toLowerCase (change_type change) = key)
  then Some (JS.incr (counts !! key)) else counts !! key.
Proof.
  unfold DeployCommand.countChange. rewrite lookup_insert.
  case_decide as Heq; [by rewrite Heq|done].
Qed.

Lemma foldl_countChange_lookup (changes : list Change) (counts : gmap string JS.Number)
    (tag : string) (n : Z) :
  JS.toLowerCase tag = tag →
  counts !! tag = Some (JS.Num n) →
  foldl DeployCommand.countChange counts changes !! tag =
  Some (JS.Num (n + DeployCommand.bucketCount tag changes)).
Proof.
  intros Htag. unfold DeployCommand.bucketCount. rewrite Htag.
  revert counts n. induction changes as [|change changes IH]; intros counts n Hcounts.
  - cbn. by rewrite Z.add_0_r.
  - cbn [foldl]. destruct (decide (JS.toLowerCase (change_type change) = tag)) as [Heq|Hne].
    + rewrite filter_cons_True by done. cbn [length].
      rewrite (IH _ (n + 1)).
      * do 2 f_equal. lia.
      * rewrite countChange_lookup, decide_True by done. by rewrite Hcounts.
    + rewrite filter_cons_False by done. apply IH.
      rewrite countChange_lookup, decide_False by done. done.
Qed.

(** C8: for every list of change records, each of the counters [add],
    [update] and [remove] of the change summary is the number of records
    whose type tag is the name of the counter in any letter case; on the
    tags ADD, update, ADD, REMOVE the summary is {add: 2, update: 1,
    remove: 1}. *)
Theorem change_summary_counts (changes : list Change) :
  DeployCommand.changeCounts changes !! "add"
    = Some (JS.Num (DeployCommand.bucketCount "add" changes))
  ∧ DeployCommand.changeCounts changes !! "update"
    = Some (JS.Num (DeployCommand.bucketCount "update" changes))
  ∧ DeployCommand.changeCounts changes !! "remove"
    = Some (JS.Num (DeployCommand.bucketCount "remove" changes))
  ∧ DeployCommand.changeCounts
      [Sample.change "ADD"; Sample.change "update"; Sample.change "ADD";
       Sample.change "REMOVE"]
    = <["add" := JS.Num 2]> (<["update" := JS.Num 1]> (<["remove" := JS.Num 1]> ∅)).
Proof.
  split; [|split; [|split]].
  - unfold DeployCommand.changeCounts.
    by rewrite (foldl_countChange_lookup _ _ "add" 0).
  - unfold DeployCommand.changeCounts.
    by rewrite (foldl_countChange_lookup _ _ "update" 0).
  - unfold DeployCommand.changeCounts.
    by rewrite (foldl_countChange_lookup _ _ "remove" 0).
  - vm_compute. reflexivity.
Qed.

(** The suffix of a counter in the report: [s] for one, nothing otherwise. *)
Lemma counted_number (n : Z) (noun : string) :
  DeployCommand.counted (Some (JS.Num n)) noun =
  pretty n +:+ " " +:+ noun +:+ (if decide (n = 1) then "s" else "").
Proof.
  unfold DeployCommand.counted. cbn [JS.template JS.toString].
  do 3 f_equal. case_bool_decide as H; case_decide as H'; try done.
  - injection H as H. done.
  - by subst.
Qed.

(** C9: the report of the summary {add: 1, update: 0, remove: 2} reads
    "1 additions, 0 update, 2 removal": the suffix is put on the count 1 and
    left out on every other count. *)
Theorem summary_pluralization_inverted :
  DeployCommand.summary
    (<["add" := JS.Num 1]> (<["update" := JS.Num 0]> (<["remove" := JS.Num 2]> ∅)))
  = "Changes deployed to the slicknode servers: " +:+ newline
    +:+ "1 additions, 0 update, 2 removal".
Proof. vm_compute. reflexivity. Qed.

(** ** [DeployCommand.run] *)

Lemma resolution_before_migration (e : Event) :
  is_resolution e = true → before_migration e.
Proof. by destruct e. Qed.

Lemma getOrCreateEnvironment_trace (o : IDeployCommandOptions) (w : World) (s : State) :
  ∃ evs, trace (DeployCommand.getOrCreateEnvironment o w s).2 = trace s ++ evs
         ∧ Forall before_migration evs.
Proof.
  destruct (store s !! DeployCommand.envName o) as [record|] eqn:Hlookup.
  - rewrite (getOrCreateEnvironment_existing o w s record Hlookup).
    exists []. by rewrite app_nil_r.
  - destruct (getOrCreateEnvironment_cases o w s Hlookup) as (names & evs & Hres & _ & Hcases).
    assert (Forall before_migration evs) as Hevs
      by (eapply Forall_impl; [exact Hres|]; apply resolution_before_migration).
    assert (Forall before_migration (DeployCommand.clusterEvents w)) as Hcluster
      by (by apply clusterEvents_Forall).
    destruct (DeployCommand.selected w) as [c|]; cbn zeta in Hcases;
      [destruct (createProject_node _) as [project|];
       [destruct (node_version project) as [version|]|]|];
      rewrite Hcases; cbn [snd trace]; eexists; (split; [reflexivity|]);
      rewrite !Forall_app; repeat split; try done; try (by repeat constructor).
    apply Forall_fmap, Forall_true. done.
Qed.

Lemma printValidationErrors_steady (errors : list string) (index : nat) :
  ∃ evs, steady (DeployCommand.printValidationErrors index errors) (Return ()) evs
         ∧ Forall before_migration evs.
Proof.
  revert index. induction errors as [|error errors IH]; intros index;
    cbn [DeployCommand.printValidationErrors].
  - exists []. split; [apply steady_mret|constructor].
  - destruct (IH (S index)) as (evs & Hsteady & Hevs).
    eexists (_ :: evs). split.
    + apply (steady_bind _ _ () [_]); [apply steady_emit|exact Hsteady].
    + by constructor.
Qed.

Section AfterMigration.
Import DeployCommand.
Context (w : World) (result : MigrateProjectResult).

Lemma afterMigration_errors :
  serverErrors result ≠ [] →
  steady (afterMigration w result) (Return ()) [PrintErrors (serverErrors result)].
Proof.
  intros Herrors. unfold afterMigration.
  destruct (serverErrors result); [done|]. apply steady_emit.
Qed.

Lemma afterMigration_not_deployed :
  serverErrors result = [] → deployedBundle result = None →
  steady (afterMigration w result) (Return ())
    (LoggerError "The version was not deployed. Try again later."
     :: ((λ error, LoggerError ("Error: " +:+ message error)) <$> migrate_errors result)).
Proof.
  intros Herrors Hbundle. unfold afterMigration. rewrite Herrors, Hbundle.
  apply (steady_bind _ _ () [_]); [apply steady_emit|].
  apply steady_forEach_logger_error.
Qed.

Lemma afterMigration_refresh (bundle : string) :
  serverErrors result = [] → deployedBundle result = Some bundle →
  ∃ evs, steady (afterMigration w result) (Return ()) (LoadProjectVersion bundle :: evs).
Proof.
  intros Herrors Hbundle. unfold afterMigration. rewrite Herrors, Hbundle.
  destruct (loadProjectVersion w bundle); cbn [negb].
  - exists [LoggerLog (summary (changeCounts (migrateProject_changes result)));
            LoggerLog "Deployment successful!"].
    apply (steady_bind _ _ () [LoadProjectVersion bundle]); [apply steady_emit|].
    apply (steady_bind _ _ () [LoggerLog _] _ [LoggerLog _]); apply steady_emit.
  - exists [LoggerError "Error loading project config from servers"].
    apply (steady_bind _ _ () [LoadProjectVersion bundle] _ [LoggerError _]);
      apply steady_emit.
Qed.
End AfterMigration.

(** [run] either ends before the migration request, or issues it and goes
    on with [afterMigration]. *)
Lemma run_cases (o : IDeployCommandOptions) (w : World) (s : State) :
  (∃ out st evs,
     DeployCommand.run o w s = (out, {| store := st; trace := trace s ++ evs |})
     ∧ Forall before_migration evs)
  ∨ (∃ env st evs,
       DeployCommand.run o w s =
         DeployCommand.afterMigration w (api_migrateProject w false env)
           {| store := st; trace := trace s ++ evs ++ [MigrateProject false env] |}
       ∧ Forall before_migration evs).
Proof.
  unfold DeployCommand.run.
  destruct (getConfig w); cbn [negb].
  2: { left. eexists _, _, _. split.
       - run_steps. rewrite <- !app_assoc. reflexivity.
       - by repeat constructor. }
  destruct (validate w) as [|error errors] eqn:Hvalidate.
  2: { left. destruct (printValidationErrors_steady (error :: errors) 0)
         as (evs & Hsteady & Hevs).
       eexists _, _, (LoggerError _ :: evs). split.
       - run_steps. rewrite Hsteady. cbn [store trace]. rewrite <- !app_assoc. reflexivity.
       - by constructor. }
  destruct (updateRequired w).
  { left. exists (Return ()), (store s), []. split; [apply steady_mret|constructor]. }
  destruct (authenticate w); cbn [negb].
  2: { left. exists (Return ()), (store s), []. split; [apply steady_mret|constructor]. }
  rewrite mbind_run.
  destruct (getOrCreateEnvironment_trace o w s) as (evs & Htrace & Hevs).
  destruct (DeployCommand.getOrCreateEnvironment o w s) as [[env|error] [st tr]].
  2: { left. cbn in Htrace. subst tr. by eexists _, _, _. }
  cbn in Htrace. subst tr.
  destruct (loadAndPrintStatus w env); cbn [negb].
  2: { left. rewrite mret_run. by eexists _, _, _. }
  rewrite mbind_run.
  destruct (opt_force o); cbn [negb].
  - rewrite mret_run. cbn [negb]. right. exists env, st, evs.
    unfold migrateProject. rewrite !mbind_run, emit_run, mret_run. cbn [store trace].
    by rewrite <- app_assoc.
  - rewrite mbind_run, emit_run, mret_run. cbn [store trace].
    destruct (inquirer_confirm w); cbn [negb].
    + right. exists env, st, (evs ++ [InquirerConfirm]).
      unfold migrateProject. rewrite !mbind_run, emit_run, mret_run. cbn [store trace].
      rewrite <- !app_assoc. split; [done|].
      apply Forall_app. split; [done|]. by repeat constructor.
    + left. unfold logger_log. rewrite emit_run. cbn [store trace].
      eexists _, _, (evs ++ [InquirerConfirm; LoggerLog "Deployment aborted"]).
      rewrite <- !app_assoc. split; [done|].
      apply Forall_app. split; [done|]. by repeat constructor.
Qed.

Lemma before_migration_no_request (evs : list Event) (dryRun : bool)
    (env : IEnvironmentConfig) :
  Forall before_migration evs → MigrateProject dryRun env ∉ evs.
Proof.
  intros Hall Hin. rewrite Forall_forall in Hall.
  by destruct (Hall _ Hin) as [? _].
Qed.

Lemma before_migration_no_refresh (evs : list Event) :
  Forall before_migration evs → Forall (λ e, is_refresh e = false) evs.
Proof. intros Hall. eapply Forall_impl; [exact Hall|]. by intros e [_ ?]. Qed.

Lemma serverErrors_elem (result : MigrateProjectResult) (error : IProjectChangeError) :
  error ∈ DeployCommand.serverErrors result ↔ Some error ∈ migrateProject_errors result.
Proof.
  unfold DeployCommand.serverErrors. rewrite list_elem_of_omap. split.
  - by intros (x & Hx & ->).
  - intros H. by exists (Some error).
Qed.

Lemma deployedBundle_None (result : MigrateProjectResult) :
  DeployCommand.deployedBundle result = None ↔
  migrateProject_node result = None
  ∨ ∃ project, migrateProject_node result = Some project
      ∧ (node_version project = None
         ∨ ∃ version, node_version project = Some version
             ∧ JS.truthy (version_bundle version) = false).
Proof.
  unfold DeployCommand.deployedBundle.
  destruct (migrateProject_node result) as [project|]; [|by split; [left|]].
  destruct (node_version project) as [version|] eqn:Hversion.
  - destruct (JS.truthy (version_bundle version)) eqn:Htruthy.
    + split.
      * intros Hnone. destruct (version_bundle version); [done|]. by cbn in Htruthy.
      * intros [|(p & [= <-] & [|(v & ? & ?)])]; [done|congruence|congruence].
    + split; [|done]. intros _. right. exists project. split; [done|]. right. by exists version.
  - split; [|done]. intros _. right. exists project. split; [done|]. by left.
Qed.

(** C5: when every migration response carries an entry other than [null]
    in its [errors], [run] does not refresh the local files; and when [run]
    issues the migration request, its last step hands the errors (every
    entry that is not [null]) to [printErrors], and it returns. *)
Theorem server_errors_abort_before_refresh
    (o : IDeployCommandOptions) (w : World) (s : State) :
  (∀ env, DeployCommand.serverErrors (api_migrateProject w false env) ≠ []) →
  Forall (λ e, is_refresh e = false) (events (DeployCommand.run o w) s)
  ∧ (∀ env, MigrateProject false env ∈ events (DeployCommand.run o w) s →
       (DeployCommand.run o w s).1 = Return ()
       ∧ ∃ evs, events (DeployCommand.run o w) s =
           evs ++ [MigrateProject false env;
                   PrintErrors (DeployCommand.serverErrors (api_migrateProject w false env))])
  ∧ (∀ env error,
       Some error ∈ migrateProject_errors (api_migrateProject w false env) →
       error ∈ DeployCommand.serverErrors (api_migrateProject w false env)).
Proof.
  intros Herrors. split; [|split]; [| |intros env error; apply serverErrors_elem].
  - destruct (run_cases o w s) as [(out & st & evs & Hrun & Hevs)|(env & st & evs & Hrun & Hevs)].
    + rewrite (events_intro _ _ _ _ _ Hrun eq_refl). by apply before_migration_no_refresh.
    + rewrite (afterMigration_errors w _ (Herrors env)) in Hrun. cbn [store trace] in Hrun.
      rewrite (events_intro _ _ _ _ (evs ++ [MigrateProject false env]
        ++ [PrintErrors (DeployCommand.serverErrors (api_migrateProject w false env))]) Hrun)
        by (cbn [trace]; by rewrite <- !app_assoc).
      apply Forall_app. split; [by apply before_migration_no_refresh|by repeat constructor].
  - intros env Hin.
    destruct (run_cases o w s) as [(out & st & evs & Hrun & Hevs)|(env' & st & evs & Hrun & Hevs)].
    + rewrite (events_intro _ _ _ _ _ Hrun eq_refl) in Hin.
      by apply before_migration_no_request in Hin.
    + rewrite (afterMigration_errors w _ (Herrors env')) in Hrun. cbn [store trace] in Hrun.
      assert (events (DeployCommand.run o w) s = evs ++ [MigrateProject false env'
        ; PrintErrors (DeployCommand.serverErrors (api_migrateProject w false env'))])
        as Hevents.
      { apply (events_intro _ _ _ _ _ Hrun). cbn [trace]. by rewrite <- !app_assoc. }
      rewrite Hevents in Hin |- *. rewrite Hrun. cbn [fst].
      rewrite elem_of_app, !elem_of_cons in Hin.
      destruct Hin as [Hin|[[= <-]|[[=]|Hin]]].
      * by apply before_migration_no_request in Hin.
      * split; [done|]. by exists evs.
      * by apply not_elem_of_nil in Hin.
Qed.

Lemma server_errors_abort_before_refresh_witness :
  (∀ env, DeployCommand.serverErrors (api_migrateProject Sample.rejected false env) ≠ [])
  ∧ Forall (λ e, is_refresh e = false)
      (events (DeployCommand.run (Sample.options true None None) Sample.rejected)
         (Sample.start {["default" := Sample.environment]}))
  ∧ (DeployCommand.run (Sample.options true None None) Sample.rejected
       (Sample.start {["default" := Sample.environment]})).1 = Return ().
Proof.
  assert (∀ env, DeployCommand.serverErrors (api_migrateProject Sample.rejected false env) ≠ [])
    as Herrors by (intros env; discriminate).
  split; [exact Herrors|].
  destruct (server_errors_abort_before_refresh (Sample.options true None None)
              Sample.rejected (Sample.start {["default" := Sample.environment]}) Herrors)
    as (Hrefresh & Habort & _).
  split; [exact Hrefresh|].
  refine (proj1 (Habort Sample.environment _)).
  vm_compute. left.
Defined.

(** C5 fails as stated: an [errors] array whose only entry is [null] is not
    empty, and [run] goes on to refresh the local files. *)
Lemma null_error_does_not_abort :
  migrateProject_errors (api_migrateProject Sample.nullError false Sample.environment) = [None]
  ∧ events (DeployCommand.run (Sample.options true None None) Sample.nullError)
      (Sample.start {["default" := Sample.environment]})
    = [MigrateProject false Sample.environment;
       LoadProjectVersion "http://localhost/fakeversionbundle.zip";
       LoggerLog (DeployCommand.summary (DeployCommand.changeCounts []));
       LoggerLog "Deployment successful!"].
Proof. split; [reflexivity|]. vm_compute. reflexivity. Qed.

(** C6: when no migration response has a project node with a version and a
    non-empty bundle, [run] does not refresh the local files; and when it
    issues the migration request and the response carries no error entry
    other than [null], its last steps log that the version was not deployed,
    then one line for each top-level error of the response, and it returns. *)
Theorem missing_bundle_aborts_before_refresh
    (o : IDeployCommandOptions) (w : World) (s : State) :
  (∀ env, DeployCommand.deployedBundle (api_migrateProject w false env) = None) →
  Forall (λ e, is_refresh e = false) (events (DeployCommand.run o w) s)
  ∧ (∀ env,
       DeployCommand.serverErrors (api_migrateProject w false env) = [] →
       MigrateProject false env ∈ events (DeployCommand.run o w) s →
       (DeployCommand.run o w s).1 = Return ()
       ∧ ∃ evs, events (DeployCommand.run o w) s =
           evs ++ [MigrateProject false env;
                   LoggerError "The version was not deployed. Try again later."]
               ++ ((λ error, LoggerError ("Error: " +:+ message error))
                     <$> migrate_errors (api_migrateProject w false env))).
Proof.
  intros Hbundle.
  destruct (run_cases o w s) as [(out & st & evs & Hrun & Hevs)|(env' & st & evs & Hrun & Hevs)].
  { rewrite (events_intro _ _ _ _ _ Hrun eq_refl). split.
    - by apply before_migration_no_refresh.
    - intros env _ Hin. by apply before_migration_no_request in Hin. }
  destruct (DeployCommand.serverErrors (api_migrateProject w false env')) as [|e es] eqn:Herrors.
  - rewrite (afterMigration_not_deployed w _ Herrors (Hbundle env')) in Hrun.
    cbn [store trace] in Hrun.
    assert (events (DeployCommand.run o w) s =
              evs ++ [MigrateProject false env';
                      LoggerError "The version was not deployed. Try again later."]
                  ++ ((λ error, LoggerError ("Error: " +:+ message error))
                        <$> migrate_errors (api_migrateProject w false env'))) as Hevents.
    { apply (events_intro _ _ _ _ _ Hrun). cbn [trace]. by rewrite <- !app_assoc. }
    rewrite Hevents, Hrun. cbn [fst]. split.
    + rewrite !Forall_app. split; [by apply before_migration_no_refresh|].
      split; [by repeat constructor|]. apply Forall_fmap, Forall_true. done.
    + intros env _ Hin. rewrite !elem_of_app, !elem_of_cons, list_elem_of_fmap in Hin.
      destruct Hin as [Hin|[[[= <-]|[[=]|Hin]]|(x & [=] & _)]].
      * by apply before_migration_no_request in Hin.
      * split; [done|]. by exists evs.
      * by apply not_elem_of_nil in Hin.
  - assert (DeployCommand.serverErrors (api_migrateProject w false env') ≠ []) as Hne
      by (by rewrite Herrors).
    rewrite (afterMigration_errors w _ Hne) in Hrun. cbn [store trace] in Hrun.
    assert (events (DeployCommand.run o w) s = evs ++ [MigrateProject false env'
      ; PrintErrors (DeployCommand.serverErrors (api_migrateProject w false env'))])
      as Hevents.
    { apply (events_intro _ _ _ _ _ Hrun). cbn [trace]. by rewrite <- !app_assoc. }
    rewrite Hevents. split.
    + apply Forall_app. split; [by apply before_migration_no_refresh|by repeat constructor].
    + intros env Henv Hin. rewrite elem_of_app, !elem_of_cons in Hin.
      destruct Hin as [Hin|[[= <-]|[[=]|Hin]]].
      * by apply before_migration_no_request in Hin.
      * done.
      * by apply not_elem_of_nil in Hin.
Qed.

Lemma missing_bundle_aborts_before_refresh_witness :
  (∀ env, DeployCommand.deployedBundle (api_migrateProject Sample.notDeployed false env) = None)
  ∧ Forall (λ e, is_refresh e = false)
      (events (DeployCommand.run (Sample.options true None None) Sample.notDeployed)
         (Sample.start {["default" := Sample.environment]}))
  ∧ (DeployCommand.run (Sample.options true None None) Sample.notDeployed
       (Sample.start {["default" := Sample.environment]})).1 = Return ().
Proof.
  assert (∀ env, DeployCommand.deployedBundle
                   (api_migrateProject Sample.notDeployed false env) = None)
    as Hbundle by (intros env; reflexivity).
  split; [exact Hbundle|].
  destruct (missing_bundle_aborts_before_refresh (Sample.options true None None)
              Sample.notDeployed (Sample.start {["default" := Sample.environment]}) Hbundle)
    as [Hrefresh Hmessage].
  split; [exact Hrefresh|].
  refine (proj1 (Hmessage Sample.environment eq_refl _)).
  vm_compute. left.
Defined.

(** C6 fails as stated: a response without project node that carries an
    error makes [run] stop at [printErrors]; the line that the version was
    not deployed is not logged. *)
Lemma rejected_migration_not_reported_as_not_deployed :
  DeployCommand.deployedBundle
    (api_migrateProject Sample.rejected false Sample.environment) = None
  ∧ events (DeployCommand.run (Sample.options true None None) Sample.rejected)
      (Sample.start {["default" := Sample.environment]})
    = [MigrateProject false Sample.environment;
       PrintErrors [{| error_description := "Invalid schema" |}]]
  ∧ LoggerError "The version was not deployed. Try again later."
    ∉ events (DeployCommand.run (Sample.options true None None) Sample.rejected)
        (Sample.start {["default" := Sample.environment]}).
Proof.
  assert (events (DeployCommand.run (Sample.options true None None) Sample.rejected)
            (Sample.start {["default" := Sample.environment]})
          = [MigrateProject false Sample.environment;
             PrintErrors [{| error_description := "Invalid schema" |}]]) as Hevents
    by (vm_compute; reflexivity).
  split; [reflexivity|]. split; [exact Hevents|].
  rewrite Hevents, !elem_of_cons. intros [[=]|[[=]|Hin]].
  by apply not_elem_of_nil in Hin.
Qed.

(** ** The ranking of [InitCommand.getCluster] *)

Section StableSort.
Context {A : Type} (comparefn : A → A → JS.Number).

(** [x] has to come after [y]. *)
Let after (x y : A) : Prop := JS.gt0 (comparefn x y) = true.

Hypothesis after_asym : ∀ x y, after x y → ¬ after y x.
Hypothesis after_negtrans : ∀ x y z, ¬ after x y → ¬ after y z → ¬ after x z.

Lemma sort_insert_sorted (x : A) (l : list A) :
  StronglySorted (λ a b, ¬ after a b) l →
  StronglySorted (λ a b, ¬ after a b) (JS.sort_insert comparefn x l).
Proof.
  induction 1 as [|y l Hsorted IH Hall]; cbn [JS.sort_insert].
  - by repeat constructor.
  - destruct (JS.gt0 (comparefn x y)) eqn:Hcmp.
    + constructor; [done|].
      rewrite sort_insert_perm. constructor; [|done].
      by apply after_asym.
    + assert (¬ after x y) as Hxy by (unfold after; by rewrite Hcmp).
      constructor; [by constructor|]. constructor; [done|].
      eapply Forall_impl; [exact Hall|]. intros z Hyz. by apply (after_negtrans x y z).
Qed.

Lemma Array_sort_sorted (l : list A) :
  StronglySorted (λ a b, ¬ after a b) (JS.Array_sort comparefn l).
Proof.
  induction l as [|x l IH]; cbn [JS.Array_sort]; [constructor|].
  by apply sort_insert_sorted.
Qed.
End StableSort.

Section Stability.
Context {A : Type} (comparefn : A → A → JS.Number).
Context (P : A → Prop) `{!∀ x, Decision (P x)}.

(** Two elements of the class [P] are never swapped. *)
Hypothesis class_tied : ∀ x y, P x → P y → JS.gt0 (comparefn x y) = false.

Lemma sort_insert_stable (x : A) (l : list A) :
  filter P (JS.sort_insert comparefn x l) = filter P (x :: l).
Proof.
  induction l as [|y l IH]; cbn [JS.sort_insert]; [done|].
  destruct (JS.gt0 (comparefn x y)) eqn:Hcmp; [|done].
  rewrite (filter_cons P y), IH, !(filter_cons P x), (filter_cons P y).
  destruct (decide (P x)) as [Hx|Hx], (decide (P y)) as [Hy|Hy]; try done.
  by rewrite (class_tied x y Hx Hy) in Hcmp.
Qed.

Lemma Array_sort_stable (l : list A) :
  filter P (JS.Array_sort comparefn l) = filter P l.
Proof.
  induction l as [|x l IH]; cbn [JS.Array_sort]; [done|].
  by rewrite sort_insert_stable, !filter_cons, IH.
Qed.
End Stability.

Ltac latency_cases :=
  unfold InitCommand.compareLatency, InitCommand.orInfinity;
  repeat match goal with
         | |- context [latency ?t] => destruct (latency t) as [?|]
         | |- context [(?z =? 0)] => destruct (Z.eqb_spec z 0)
         end;
  cbn [JS.sub JS.gt0]; rewrite ?Z.ltb_lt; try (intros; lia); try done.

Lemma compareLatency_asym (x y : Timing) :
  JS.gt0 (InitCommand.compareLatency x y) = true →
  ¬ JS.gt0 (InitCommand.compareLatency y x) = true.
Proof. latency_cases. Qed.

Lemma compareLatency_negtrans (x y z : Timing) :
  ¬ JS.gt0 (InitCommand.compareLatency x y) = true →
  ¬ JS.gt0 (InitCommand.compareLatency y z) = true →
  ¬ JS.gt0 (InitCommand.compareLatency x z) = true.
Proof. latency_cases. Qed.

Lemma compareLatency_tied (lat : option Z) (x y : Timing) :
  latency x = lat → latency y = lat →
  JS.gt0 (InitCommand.compareLatency x y) = false.
Proof.
  intros Hx Hy. unfold InitCommand.compareLatency, InitCommand.orInfinity.
  rewrite Hx, Hy. destruct lat as [z|]; [|done].
  destruct (z =? 0); [done|]. cbn. apply Z.ltb_ge. lia.
Qed.

Lemma ranking_perm (l : list Timing) : InitCommand.ranking l ≡ₚ l.
Proof. apply Array_sort_perm. Qed.

(** The ranking never puts a candidate before one that the comparator
    orders first. *)
Lemma ranking_sorted (l : list Timing) :
  StronglySorted (λ a b, ¬ JS.gt0 (InitCommand.compareLatency a b) = true)
    (InitCommand.ranking l).
Proof.
  apply Array_sort_sorted.
  - apply compareLatency_asym.
  - apply compareLatency_negtrans.
Qed.

(** Candidates with the same latency keep their order. *)
Lemma ranking_stable (l : list Timing) (lat : option Z) :
  filter (λ t, latency t = lat) (InitCommand.ranking l) = filter (λ t, latency t = lat) l.
Proof. apply Array_sort_stable. apply compareLatency_tied. Qed.

Lemma StronglySorted_impl_on {A} (Q : A → Prop) (R R' : A → A → Prop) (l : list A) :
  (∀ a b, Q a → Q b → R a b → R' a b) →
  Forall Q l → StronglySorted R l → StronglySorted R' l.
Proof.
  intros Himpl Hall Hsorted. induction Hsorted as [|x l Hsorted IH Hx]; [constructor|].
  apply Forall_cons in Hall as [Hqx Hall]. constructor; [by apply IH|].
  rewrite Forall_forall in Hx, Hall |- *. intros y Hy. apply Himpl; auto.
Qed.

(** When no probe resolves within the same millisecond, the ranking is in
    ascending order of latency with the unreachable candidates last. *)
Lemma ranking_of_nonzero_latencies (l : list Timing) :
  Forall (λ t, latency t ≠ Some 0) l →
  StronglySorted InitCommand.ranked_before (InitCommand.ranking l).
Proof.
  intros Hnonzero.
  apply (StronglySorted_impl_on (λ t, latency t ≠ Some 0)
           (λ a b, ¬ JS.gt0 (InitCommand.compareLatency a b) = true)).
  - intros a b. unfold InitCommand.ranked_before, InitCommand.compareLatency,
      InitCommand.orInfinity.
    destruct (latency a) as [x|], (latency b) as [y|]; try done.
    + destruct (Z.eqb_spec x 0); [by subst|]. destruct (Z.eqb_spec y 0); [by subst|].
      cbn. rewrite Z.ltb_lt. lia.
    + destruct (Z.eqb_spec y 0); [by subst|]. cbn. intros _ _ H. by apply H.
  - by rewrite ranking_perm.
  - apply ranking_sorted.
Qed.

(** With two candidates or more, [InitCommand.getCluster] probes every
    candidate and offers the ranking as the choices of the prompt. *)
Lemma init_getCluster_ranked (w : World) (s : State)
    (node1 node2 : ICluster) (edges : list ICluster) :
  listCluster_edges (api_listCluster w) = node1 :: node2 :: edges →
  InitCommand.getCluster w s =
  (Return (choice_value <$>
             (InitCommand.choice <$>
                InitCommand.ranking (timings w 0 (node1 :: node2 :: edges)))
             !! inquirer_list w
                  (InitCommand.choice <$>
                     InitCommand.ranking (timings w 0 (node1 :: node2 :: edges)))),
   {| store := store s;
      trace := trace s ++ [CliAction true; ClientFetch ListCluster]
        ++ ((λ node, Fetch (pingUrl node)) <$> node1 :: node2 :: edges)
        ++ [CliAction false;
            InquirerList (InitCommand.choice <$>
              InitCommand.ranking (timings w 0 (node1 :: node2 :: edges)))] |}).
Proof.
  intros Hedges. unfold InitCommand.getCluster. run_steps. rewrite Hedges.
  rewrite mbind_run, dcTimers_run. run_steps.
  by rewrite <- !app_assoc.
Qed.

(** C1: a probe that resolves within the same millisecond has latency 0,
    which the comparator reads as unreachable: the candidate with the
    smallest latency is ranked last, behind a candidate that did not answer
    at all, and the prompt of [InitCommand.getCluster] offers the candidates
    in that order. *)
Theorem zero_latency_ranked_as_unreachable :
  InitCommand.ranking
    (timings Sample.zeroLatency 0 [Sample.east; Sample.west; Sample.europe])
  = [{| latency := Some 5; cluster := Sample.europe |};
     {| latency := None; cluster := Sample.east |};
     {| latency := Some 0; cluster := Sample.west |}]
  ∧ last (events (InitCommand.getCluster Sample.zeroLatency) (Sample.start ∅))
    = Some (InquirerList
        (InitCommand.choice <$>
           [{| latency := Some 5; cluster := Sample.europe |};
            {| latency := None; cluster := Sample.east |};
            {| latency := Some 0; cluster := Sample.west |}])).
Proof. split; [reflexivity|]. vm_compute. reflexivity. Qed.

(** [DeployCommand.getCluster] on a list whose first candidate is the slower
    of two: the comparator never asks for a swap here, and the slower
    candidate is returned. *)
Lemma deploy_selects_slower_candidate :
  timings Sample.slowFirst 0 [Sample.east; Sample.west]
  = [{| latency := Some 5; cluster := Sample.east |};
     {| latency := Some 3; cluster := Sample.west |}]
  ∧ DeployCommand.selected Sample.slowFirst = Some Sample.east.
Proof. split; reflexivity. Qed.

(** * Further properties of the commands *)

(** ** Cluster resolution *)

(** X1: when the listing response carries an error, [DeployCommand.getCluster]
    logs the message of the first error and returns [null] without probing,
    whatever candidates the response lists. *)
Theorem deploy_listing_error_returns_null
    (w : World) (s : State) (error : GraphQLError) (errors : list GraphQLError) :
  listCluster_errors (api_listCluster w) = error :: errors →
  (DeployCommand.getCluster w s).1 = Return None
  ∧ events (DeployCommand.getCluster w) s =
      [ClientFetch ListCluster; LoggerLog "Load available clusters";
       LoggerError ("Error loading clusters: " +:+ message error)]
  ∧ store (DeployCommand.getCluster w s).2 = store s.
Proof.
  intros Herrors.
  rewrite (steady_events _ _ _ s (getCluster_steady w)), getCluster_steady.
  unfold DeployCommand.selected, DeployCommand.clusterEvents. by rewrite Herrors.
Qed.

Lemma deploy_listing_error_returns_null_witness :
  listCluster_errors (api_listCluster Extra.listingError)
    = [{| message := "Unauthorized" |}]
  ∧ (DeployCommand.getCluster Extra.listingError (Sample.start ∅)).1 = Return None.
Proof.
  split; [reflexivity|].
  exact (proj1 (deploy_listing_error_returns_null Extra.listingError (Sample.start ∅)
                  {| message := "Unauthorized" |} [] eq_refl)).
Defined.

(** X2: when the listing response carries no error,
    [DeployCommand.getCluster] probes every candidate exactly once, in the
    order of the list, after the listing request; with no candidate it
    returns [null]. *)
Theorem deploy_probes_every_candidate_once (w : World) (s : State) :
  listCluster_errors (api_listCluster w) = [] →
  events (DeployCommand.getCluster w) s =
    [ClientFetch ListCluster; LoggerLog "Load available clusters"]
    ++ ((λ node, Fetch (pingUrl node)) <$> listCluster_edges (api_listCluster w))
  ∧ length (filter (λ e, is_probe e = true) (events (DeployCommand.getCluster w) s))
    = length (listCluster_edges (api_listCluster w))
  ∧ (listCluster_edges (api_listCluster w) = [] →
     (DeployCommand.getCluster w s).1 = Return None).
Proof.
  intros Herrors.
  rewrite (steady_events _ _ _ s (getCluster_steady w)), getCluster_steady.
  unfold DeployCommand.selected, DeployCommand.clusterEvents. rewrite Herrors.
  split; [done|]. split.
  - cbn [app]. rewrite !filter_cons_False by done.
    induction (listCluster_edges (api_listCluster w)) as [|node edges IH]; [done|].
    cbn [fmap list_fmap]. rewrite filter_cons_True by done. cbn [length]. by f_equal.
  - by intros ->.
Qed.

Lemma deploy_probes_every_candidate_once_witness :
  listCluster_errors (api_listCluster Sample.unreachable) = []
  ∧ length (filter (λ e, is_probe e = true)
              (events (DeployCommand.getCluster Sample.unreachable) (Sample.start ∅)))
    = 2%nat.
Proof.
  split; [reflexivity|].
  exact (proj1 (proj2 (deploy_probes_every_candidate_once Sample.unreachable
                         (Sample.start ∅) eq_refl))).
Defined.

Lemma init_getCluster_empty (w : World) (s : State) :
  listCluster_edges (api_listCluster w) = [] →
  InitCommand.getCluster w s =
  (Return None,
   {| store := store s; trace := trace s ++ [CliAction true; ClientFetch ListCluster] |}).
Proof.
  intros Hedges. unfold InitCommand.getCluster. run_steps. rewrite Hedges. run_steps.
  by rewrite <- !app_assoc.
Qed.

(** X3: with no candidate, [InitCommand.getCluster] returns [null] after the
    listing request, without probe and without prompt; the action that it
    started is not stopped. *)
Theorem init_no_candidate (w : World) (s : State) :
  listCluster_edges (api_listCluster w) = [] →
  InitCommand.getCluster w s =
  (Return None,
   {| store := store s; trace := trace s ++ [CliAction true; ClientFetch ListCluster] |}).
Proof. apply init_getCluster_empty. Qed.

Lemma init_no_candidate_witness :
  listCluster_edges (api_listCluster Extra.noCluster) = []
  ∧ InitCommand.getCluster Extra.noCluster (Sample.start ∅) =
    (Return None,
     {| store := ∅; trace := [CliAction true; ClientFetch ListCluster] |}).
Proof.
  split; [reflexivity|].
  exact (init_no_candidate Extra.noCluster (Sample.start ∅) eq_refl).
Defined.

Lemma timings_clusters (w : World) (edges : list ICluster) (index : nat) :
  cluster <$> timings w index edges = edges.
Proof.
  revert index. induction edges as [|node edges IH]; intros index; [done|].
  cbn [timings fmap list_fmap cluster]. by rewrite (IH (S index)).
Qed.

Lemma offered_clusters (w : World) (edges : list ICluster) :
  choice_value <$> (InitCommand.choice <$> InitCommand.ranking (timings w 0 edges))
  ≡ₚ edges.
Proof.
  rewrite <- list_fmap_compose.
  replace (choice_value ∘ InitCommand.choice <$> InitCommand.ranking (timings w 0 edges))
    with (cluster <$> InitCommand.ranking (timings w 0 edges))
    by (by apply list_fmap_ext).
  by rewrite ranking_perm, timings_clusters.
Qed.

(** X4: with two candidates or more, [InitCommand.getCluster] probes every
    candidate once in the order of the list, then prompts once; the choices
    of the prompt are the candidates of the list, each of them once, and a
    cluster that it returns is one of them. *)
Theorem init_offers_every_candidate
    (w : World) (s : State) (node1 node2 : ICluster) (edges : list ICluster) :
  listCluster_edges (api_listCluster w) = node1 :: node2 :: edges →
  events (InitCommand.getCluster w) s =
    [CliAction true; ClientFetch ListCluster]
    ++ ((λ node, Fetch (pingUrl node)) <$> node1 :: node2 :: edges)
    ++ [CliAction false;
        InquirerList (InitCommand.choice <$>
          InitCommand.ranking (timings w 0 (node1 :: node2 :: edges)))]
  ∧ choice_value <$>
      (InitCommand.choice <$> InitCommand.ranking (timings w 0 (node1 :: node2 :: edges)))
    ≡ₚ node1 :: node2 :: edges
  ∧ (∀ c, (InitCommand.getCluster w s).1 = Return (Some c) →
          c ∈ node1 :: node2 :: edges).
Proof.
  intros Hedges. pose proof (init_getCluster_ranked w s node1 node2 edges Hedges) as Hrun.
  split; [|split].
  - by apply (events_intro _ _ _ _ _ Hrun).
  - apply offered_clusters.
  - intros c. rewrite Hrun. cbn [fst]. intros [= Hchoice].
    apply fmap_Some in Hchoice as (chosen & Hlookup & ->).
    rewrite <- (offered_clusters w (node1 :: node2 :: edges)).
    apply list_elem_of_fmap. exists chosen. split; [done|].
    by apply list_elem_of_lookup_2 in Hlookup.
Qed.

Lemma init_offers_every_candidate_witness :
  listCluster_edges (api_listCluster Sample.zeroLatency)
    = [Sample.east; Sample.west; Sample.europe]
  ∧ choice_value <$>
      (InitCommand.choice <$>
         InitCommand.ranking
           (timings Sample.zeroLatency 0 [Sample.east; Sample.west; Sample.europe]))
    ≡ₚ [Sample.east; Sample.west; Sample.europe].
Proof.
  split; [reflexivity|].
  exact (proj1 (proj2 (init_offers_every_candidate Sample.zeroLatency (Sample.start ∅)
                         Sample.east Sample.west [Sample.europe] eq_refl))).
Defined.

Lemma ranked_before_refl (t : Timing) : InitCommand.ranked_before t t.
Proof. unfold InitCommand.ranked_before. destruct (latency t); [lia|done]. Qed.

(** X5: when no probe resolves with latency 0, the ranking of
    [InitCommand.getCluster] is in ascending order of latency with the
    candidates that did not answer last, so its first entry is a candidate
    that no other candidate precedes in that order. *)
Theorem ranking_ascending_without_zero (l : list Timing) :
  Forall (λ t, latency t ≠ Some 0) l →
  StronglySorted InitCommand.ranked_before (InitCommand.ranking l)
  ∧ (∀ first rest t, InitCommand.ranking l = first :: rest → t ∈ l →
       InitCommand.ranked_before first t).
Proof.
  intros Hnonzero. pose proof (ranking_of_nonzero_latencies l Hnonzero) as Hsorted.
  split; [done|]. intros first rest t Hranking Hin.
  rewrite Hranking in Hsorted. apply StronglySorted_inv in Hsorted as [_ Hfirst].
  rewrite <- (ranking_perm l), Hranking in Hin.
  apply elem_of_cons in Hin as [->|Hin]; [apply ranked_before_refl|].
  rewrite Forall_forall in Hfirst. by apply Hfirst.
Qed.

Lemma ranking_ascending_without_zero_witness :
  Forall (λ t, latency t ≠ Some 0)
    (timings Sample.slowFirst 0 [Sample.east; Sample.west])
  ∧ StronglySorted InitCommand.ranked_before
      (InitCommand.ranking (timings Sample.slowFirst 0 [Sample.east; Sample.west])).
Proof.
  assert (Forall (λ t, latency t ≠ Some 0)
            (timings Sample.slowFirst 0 [Sample.east; Sample.west])) as Hnonzero
    by (repeat constructor; discriminate).
  split; [exact Hnonzero|].
  exact (proj1 (ranking_ascending_without_zero _ Hnonzero)).
Defined.

(** X6: the ranking of [InitCommand.getCluster] is stable: the candidates
    that have the same latency (or all those without latency) keep the
    order of the list. *)
Theorem ranking_keeps_ties_in_order (l : list Timing) (lat : option Z) :
  filter (λ t, latency t = lat) (InitCommand.ranking l)
  = filter (λ t, latency t = lat) l.
Proof. apply ranking_stable. Qed.

(** ** Environment resolution *)

(** X7: when the creation response carries a project node with a version,
    [getOrCreateEnvironment] returns the record built from the node
    (endpoint, version id, alias, console and playground URLs, name, id, each
    as the response gives it) and stores it under the environment name; a
    later resolution of the same name returns that record from the store,
    whatever the backend answers, and leaves the state as it is. *)
Theorem created_record_round_trip
    (o : IDeployCommandOptions) (w : World) (s : State)
    (c : ICluster) (project : ProjectNode) (version : Version) :
  store s !! DeployCommand.envName o = None →
  DeployCommand.selected w = Some c →
  (∀ input, createProject_node (api_createProject w input) = Some project) →
  node_version project = Some version →
  (DeployCommand.getOrCreateEnvironment o w s).1 =
    Return {| env_endpoint := node_endpoint project;
              env_version := version_id version;
              env_alias := node_alias project;
              env_consoleUrl := node_consoleUrl project;
              env_playgroundUrl := node_playgroundUrl project;
              env_name := node_name project;
              env_id := node_id project |}
  ∧ store (DeployCommand.getOrCreateEnvironment o w s).2 =
      <[DeployCommand.envName o := DeployCommand.envConfig project version]> (store s)
  ∧ (∀ w', DeployCommand.getOrCreateEnvironment o w'
             (DeployCommand.getOrCreateEnvironment o w s).2 =
           (Return (DeployCommand.envConfig project version),
            (DeployCommand.getOrCreateEnvironment o w s).2)).
Proof.
  intros Hnone Hsel Hnode Hversion.
  destruct (getOrCreateEnvironment_cases o w s Hnone) as (names & evs & _ & _ & Hcases).
  rewrite Hsel in Hcases. cbn zeta in Hcases. rewrite Hnode, Hversion in Hcases.
  rewrite Hcases. cbn [fst snd store]. split; [done|]. split; [done|].
  intros w'. apply getOrCreateEnvironment_existing. cbn [store].
  apply lookup_insert_eq.
Qed.

Lemma created_record_round_trip_witness :
  (DeployCommand.getOrCreateEnvironment Extra.staging Sample.single (Sample.start ∅)).1 =
    Return Sample.environment
  ∧ DeployCommand.getOrCreateEnvironment Extra.staging Sample.unreachable
      (DeployCommand.getOrCreateEnvironment Extra.staging Sample.single (Sample.start ∅)).2
    = (Return Sample.environment,
       (DeployCommand.getOrCreateEnvironment Extra.staging Sample.single (Sample.start ∅)).2).
Proof.
  assert (store (Sample.start ∅) !! DeployCommand.envName Extra.staging = None) as Hnone
    by reflexivity.
  assert (DeployCommand.selected Sample.single = Some Sample.east) as Hsel by reflexivity.
  assert (∀ input, createProject_node (api_createProject Sample.single input)
                   = Some Sample.project) as Hnode by (intros input; reflexivity).
  assert (node_version Sample.project =
            Some {| version_bundle := Some "http://localhost/fakeversionbundle.zip";
                    version_id := Some "someid" |}) as Hversion by reflexivity.
  destruct (created_record_round_trip Extra.staging Sample.single (Sample.start ∅)
              Sample.east Sample.project _ Hnone Hsel Hnode Hversion)
    as (Hreturned & _ & Hagain).
  split; [exact Hreturned|]. exact (Hagain Sample.unreachable).
Defined.

(** X8: when the creation response carries a project node without version,
    [getOrCreateEnvironment] throws after the creation request has been
    sent, and writes no record: the project exists on the backend and the
    store does not know it. *)
Theorem creation_without_version_leaves_no_record
    (o : IDeployCommandOptions) (w : World) (s : State)
    (c : ICluster) (project : ProjectNode) :
  store s !! DeployCommand.envName o = None →
  DeployCommand.selected w = Some c →
  (∀ input, createProject_node (api_createProject w input) = Some project) →
  node_version project = None →
  (∃ error, (DeployCommand.getOrCreateEnvironment o w s).1 = Throw error)
  ∧ store (DeployCommand.getOrCreateEnvironment o w s).2 = store s
  ∧ (∃ input, last (events (DeployCommand.getOrCreateEnvironment o w) s)
              = Some (ClientFetch (CreateProject input))).
Proof.
  intros Hnone Hsel Hnode Hversion.
  destruct (getOrCreateEnvironment_cases o w s Hnone) as (names & evs & _ & _ & Hcases).
  rewrite Hsel in Hcases. cbn zeta in Hcases. rewrite Hnode, Hversion in Hcases.
  rewrite (events_intro _ _ _ _ _ Hcases eq_refl), Hcases. cbn [fst snd store].
  split; [by eexists|]. split; [done|].
  eexists. rewrite !app_assoc. apply last_snoc.
Qed.

Lemma creation_without_version_leaves_no_record_witness :
  store (DeployCommand.getOrCreateEnvironment (Sample.options true None None)
           Extra.incompleteCreation (Sample.start ∅)).2 = ∅
  ∧ ∃ error, (DeployCommand.getOrCreateEnvironment (Sample.options true None None)
                Extra.incompleteCreation (Sample.start ∅)).1 = Throw error.
Proof.
  assert (store (Sample.start ∅)
            !! DeployCommand.envName (Sample.options true None None) = None) as Hnone
    by reflexivity.
  assert (DeployCommand.selected Extra.incompleteCreation = Some Sample.east) as Hsel
    by reflexivity.
  assert (∀ input, createProject_node (api_createProject Extra.incompleteCreation input)
                   = Some Extra.projectWithoutVersion) as Hnode
    by (intros input; reflexivity).
  destruct (creation_without_version_leaves_no_record (Sample.options true None None)
              Extra.incompleteCreation (Sample.start ∅) Sample.east
              Extra.projectWithoutVersion Hnone Hsel Hnode eq_refl)
    as (Hthrow & Hstore & _).
  split; [exact Hstore|exact Hthrow].
Defined.

(** X9: [getOrCreateEnvironment] leaves the records of all other
    environment names as they are. *)
Theorem other_environments_untouched
    (o : IDeployCommandOptions) (w : World) (s : State) (other : string) :
  other ≠ DeployCommand.envName o →
  store (DeployCommand.getOrCreateEnvironment o w s).2 !! other = store s !! other.
Proof.
  intros Hother.
  destruct (store s !! DeployCommand.envName o) as [record|] eqn:Hlookup.
  - by rewrite (getOrCreateEnvironment_existing o w s record Hlookup).
  - destruct (getOrCreateEnvironment_cases o w s Hlookup) as (names & evs & _ & _ & Hcases).
    destruct (DeployCommand.selected w) as [c|]; cbn zeta in Hcases;
      [destruct (createProject_node _) as [project|];
       [destruct (node_version project) as [version|]|]|];
      rewrite Hcases; cbn [snd store]; try done.
    by rewrite lookup_insert_ne.
Qed.

Lemma other_environments_untouched_witness :
  "default" ≠ DeployCommand.envName Extra.staging
  ∧ store (DeployCommand.getOrCreateEnvironment Extra.staging Sample.single
             (Sample.start {["default" := Sample.environment]})).2 !! "default"
    = Some Sample.environment.
Proof.
  assert ("default" ≠ DeployCommand.envName Extra.staging) as Hother by discriminate.
  split; [exact Hother|].
  rewrite (other_environments_untouched Extra.staging Sample.single
             (Sample.start {["default" := Sample.environment]}) "default" Hother).
  reflexivity.
Defined.



(** ** The deployment *)

Lemma afterMigration_steady (w : World) (result : MigrateProjectResult) :
  steady (DeployCommand.afterMigration w result) (Return ())
    (DeployCommand.afterMigrationEvents w result).
Proof.
  unfold DeployCommand.afterMigration, DeployCommand.afterMigrationEvents.
  destruct (DeployCommand.serverErrors result); [|apply steady_emit].
  destruct (DeployCommand.deployedBundle result) as [bundle|].
  - destruct (loadProjectVersion w bundle); cbn [negb].
    + apply (steady_bind _ _ () [LoadProjectVersion bundle]); [apply steady_emit|].
      apply (steady_bind _ _ () [LoggerLog _] _ [LoggerLog _]); apply steady_emit.
    + apply (steady_bind _ _ () [LoadProjectVersion bundle] _ [LoggerError _]);
        apply steady_emit.
  - apply (steady_bind _ _ () [LoggerError _]); [apply steady_emit|].
    apply steady_forEach_logger_error.
Qed.

(** Once the checks have passed and the environment is resolved, [run]
    returns and adds the events of [afterResolutionEvents]. *)
Lemma run_resolved (o : IDeployCommandOptions) (w : World) (s s1 : State)
    (env : IEnvironmentConfig) :
  DeployCommand.ready w →
  DeployCommand.getOrCreateEnvironment o w s = (Return env, s1) →
  DeployCommand.run o w s =
  (Return (), {| store := store s1;
                 trace := trace s1 ++ DeployCommand.afterResolutionEvents o w env |}).
Proof.
  intros (Hconfig & Hvalidate & Hupdate & Hauth) Hresolve.
  unfold DeployCommand.run, DeployCommand.afterResolutionEvents.
  rewrite Hconfig, Hvalidate, Hupdate, Hauth. cbn [negb].
  rewrite mbind_run, Hresolve.
  destruct (loadAndPrintStatus w env); cbn [negb].
  2: { rewrite mret_run, app_nil_r. by destruct s1. }
  rewrite mbind_run. destruct (opt_force o); cbn [negb].
  - rewrite mret_run. cbn [negb]. unfold migrateProject.
    rewrite !mbind_run, emit_run, mret_run, afterMigration_steady. cbn [store trace].
    by rewrite <- app_assoc.
  - rewrite mbind_run, emit_run, mret_run. destruct (inquirer_confirm w); cbn [negb].
    + unfold migrateProject.
      rewrite !mbind_run, emit_run, mret_run, afterMigration_steady. cbn [store trace].
      by rewrite <- !app_assoc.
    + unfold logger_log. rewrite emit_run. cbn [store trace]. by rewrite <- !app_assoc.
Qed.

Lemma run_unresolved (o : IDeployCommandOptions) (w : World) (s s1 : State)
    (error : string) :
  DeployCommand.ready w →
  DeployCommand.getOrCreateEnvironment o w s = (Throw error, s1) →
  DeployCommand.run o w s = (Throw error, s1).
Proof.
  intros (Hconfig & Hvalidate & Hupdate & Hauth) Hresolve. unfold DeployCommand.run.
  rewrite Hconfig, Hvalidate, Hupdate, Hauth. cbn [negb].
  by rewrite mbind_run, Hresolve.
Qed.

Lemma printValidationErrors_run (errors : list string) (index : nat) :
  steady (DeployCommand.printValidationErrors index errors) (Return ())
    (imap (λ i error,
             LoggerError ("  " +:+ pretty (index + i + 1)%nat +:+ ". " +:+ error +:+ newline))
          errors).
Proof.
  revert index. induction errors as [|error errors IH]; intros index;
    cbn [DeployCommand.printValidationErrors imap].
  - apply steady_mret.
  - rewrite Nat.add_0_r.
    apply (steady_bind _ _ () [LoggerError _]); [apply steady_emit|].
    specialize (IH (S index)).
    erewrite imap_ext; [exact IH|].
    intros i error' _. cbn. do 4 f_equal. lia.
Qed.

(** When a check fails, [run] returns after logging only. *)
Lemma run_not_ready (o : IDeployCommandOptions) (w : World) :
  ¬ DeployCommand.ready w →
  ∃ evs, steady (DeployCommand.run o w) (Return ()) evs
         ∧ Forall (λ e, ∃ msg, e = LoggerLog msg ∨ e = LoggerError msg) evs.
Proof.
  intros Hnot. unfold DeployCommand.run.
  destruct (getConfig w) eqn:Hconfig; cbn [negb].
  2: { eexists [LoggerError _; LoggerLog _]. split.
       - apply (steady_bind _ _ () [LoggerError _] _ [LoggerLog _]); apply steady_emit.
       - repeat constructor; eauto. }
  destruct (validate w) as [|error errors] eqn:Hvalidate.
  2: { eexists (LoggerError _ :: _). split.
       - apply (steady_bind _ _ () [LoggerError _]); [apply steady_emit|].
         apply printValidationErrors_run.
       - constructor; [eauto|]. apply Forall_forall. intros e He.
         apply elem_of_lookup_imap_1 in He as (i & error' & -> & _). eauto. }
  destruct (updateRequired w) eqn:Hupdate.
  { exists []. split; [apply steady_mret|constructor]. }
  destruct (authenticate w) eqn:Hauth; cbn [negb].
  2: { exists []. split; [apply steady_mret|constructor]. }
  by destruct Hnot.
Qed.

Lemma ready_dec (w : World) : DeployCommand.ready w ∨ ¬ DeployCommand.ready w.
Proof.
  unfold DeployCommand.ready.
  destruct (getConfig w), (validate w), (updateRequired w), (authenticate w);
    first [by left | right; by intros (? & ? & ? & ?)].
Qed.

Lemma afterMigrationEvents_Forall (P : Event → Prop) (w : World)
    (result : MigrateProjectResult) :
  (∀ msg, P (LoggerLog msg)) → (∀ msg, P (LoggerError msg)) →
  (∀ errors, P (PrintErrors errors)) → (∀ bundle, P (LoadProjectVersion bundle)) →
  Forall P (DeployCommand.afterMigrationEvents w result).
Proof.
  intros Hlog Herror Hprint Hload. unfold DeployCommand.afterMigrationEvents.
  destruct (DeployCommand.serverErrors result); [|by repeat constructor].
  destruct (DeployCommand.deployedBundle result) as [bundle|].
  - destruct (loadProjectVersion w bundle); by repeat constructor.
  - constructor; [done|]. apply Forall_fmap, Forall_true. intros error. apply Herror.
Qed.

Lemma run_ready (o : IDeployCommandOptions) (w : World) (s : State) :
  DeployCommand.ready w →
  ∃ evs,
    Forall before_migration evs
    ∧ trace (DeployCommand.getOrCreateEnvironment o w s).2 = trace s ++ evs
    ∧ match (DeployCommand.getOrCreateEnvironment o w s).1 with
      | Return env =>
          DeployCommand.run o w s =
          (Return (),
           {| store := store (DeployCommand.getOrCreateEnvironment o w s).2;
              trace := trace s ++ evs ++ DeployCommand.afterResolutionEvents o w env |})
      | Throw error =>
          DeployCommand.run o w s =
          (Throw error, (DeployCommand.getOrCreateEnvironment o w s).2)
      end.
Proof.
  intros Hready. destruct (getOrCreateEnvironment_trace o w s) as (evs & Htrace & Hevs).
  exists evs. split; [done|]. split; [done|].
  destruct (DeployCommand.getOrCreateEnvironment o w s) as [[env|error] s1] eqn:Hresolve;
    cbn [fst snd] in *.
  - rewrite (run_resolved o w s s1 env Hready Hresolve), Htrace.
    by rewrite <- app_assoc.
  - by apply run_unresolved.
Qed.

Lemma failed_check_logs_only_helper (o : IDeployCommandOptions) (w : World) (s : State) :
  ¬ DeployCommand.ready w →
  Forall (λ e, ∃ msg, e = LoggerLog msg ∨ e = LoggerError msg)
    (events (DeployCommand.run o w) s).
Proof.
  intros Hnot. destruct (run_not_ready o w Hnot) as (evs & Hsteady & Hevs).
  by rewrite (steady_events _ _ _ s Hsteady).
Qed.



(** X12: for a project whose configuration has validation errors, [run]
    logs the heading and then one line for each error, numbered from 1 in
    the order of the validator, and nothing else. *)
Theorem validation_errors_numbered (o : IDeployCommandOptions) (w : World) (s : State) :
  getConfig w = true →
  validate w ≠ [] →
  events (DeployCommand.run o w) s =
    LoggerError ("Project configuration has errors: " +:+ newline)
    :: imap (λ i error,
               LoggerError ("  " +:+ pretty (i + 1)%nat +:+ ". " +:+ error +:+ newline))
            (validate w).
Proof.
  intros Hconfig Hvalidate.
  apply (steady_events _ (Return ())). unfold DeployCommand.run.
  rewrite Hconfig. cbn [negb]. destruct (validate w) as [|error errors]; [done|].
  apply (steady_bind _ _ () [LoggerError _]); [apply steady_emit|].
  apply (printValidationErrors_run (error :: errors) 0).
Qed.

Lemma validation_errors_numbered_witness :
  events (DeployCommand.run (Sample.options true None None) Extra.invalidConfiguration)
    (Sample.start ∅) =
  [LoggerError ("Project configuration has errors: " +:+ newline);
   LoggerError ("  1. Unknown type Foo" +:+ newline);
   LoggerError ("  2. Module name missing" +:+ newline)].
Proof.
  assert (validate Extra.invalidConfiguration ≠ []) as Hvalidate by discriminate.
  exact (validation_errors_numbered (Sample.options true None None)
           Extra.invalidConfiguration (Sample.start ∅) eq_refl Hvalidate).
Defined.

Lemma afterResolutionEvents_migration (o : IDeployCommandOptions) (w : World)
    (env env' : IEnvironmentConfig) (dryRun : bool) :
  MigrateProject dryRun env' ∈ DeployCommand.afterResolutionEvents o w env →
  dryRun = false ∧ env' = env ∧ loadAndPrintStatus w env = true
  ∧ (opt_force o = true ∨ inquirer_confirm w = true).
Proof.
  unfold DeployCommand.afterResolutionEvents.
  assert (MigrateProject dryRun env'
          ∉ DeployCommand.afterMigrationEvents w (api_migrateProject w false env)) as Hafter.
  { intros Hin.
    pose proof (afterMigrationEvents_Forall (λ e, is_migration e = false) w
                  (api_migrateProject w false env)
                  (λ _, eq_refl) (λ _, eq_refl) (λ _, eq_refl) (λ _, eq_refl)) as Hall.
    rewrite Forall_forall in Hall. by specialize (Hall _ Hin). }
  destruct (loadAndPrintStatus w env); [|by intros ?%not_elem_of_nil].
  destruct (opt_force o); [|destruct (inquirer_confirm w)]; rewrite !elem_of_cons.
  - intros [[= -> ->]|Hin]; [by auto|done].
  - intros [[=]|[[= -> ->]|Hin]]; [by auto|done].
  - intros [[=]|[[=]|Hin]]. by apply not_elem_of_nil in Hin.
Qed.

(** X13: [run] requests a migration only when all its checks have passed,
    the environment is resolved, the status is valid and the deployment is
    forced or confirmed; the request is for the resolved environment and is
    never a dry run. *)
Theorem migration_requires_all_checks
    (o : IDeployCommandOptions) (w : World) (s : State)
    (dryRun : bool) (env : IEnvironmentConfig) :
  MigrateProject dryRun env ∈ events (DeployCommand.run o w) s →
  dryRun = false
  ∧ DeployCommand.ready w
  ∧ (DeployCommand.getOrCreateEnvironment o w s).1 = Return env
  ∧ loadAndPrintStatus w env = true
  ∧ (opt_force o = true ∨ inquirer_confirm w = true).
Proof.
  intros Hin. destruct (ready_dec w) as [Hready|Hnot].
  - destruct (run_ready o w s Hready) as (evs & Hevs & _ & Hrun).
    destruct ((DeployCommand.getOrCreateEnvironment o w s).1) as [env'|error] eqn:Hresolve.
    + rewrite (events_intro _ _ _ _ _ Hrun eq_refl) in Hin.
      apply elem_of_app in Hin as [Hin|Hin];
        [by apply before_migration_no_request in Hin|].
      apply afterResolutionEvents_migration in Hin as (-> & -> & ? & ?). done.
    + destruct (getOrCreateEnvironment_trace o w s) as (evs' & Htrace & Hevs').
      rewrite (events_intro _ _ _ _ _ Hrun Htrace) in Hin.
      by apply before_migration_no_request in Hin.
  - pose proof (failed_check_logs_only_helper o w s Hnot) as Hlogs.
    rewrite Forall_forall in Hlogs. destruct (Hlogs _ Hin) as (msg & [[=]|[=]]).
Qed.

Lemma migration_requires_all_checks_witness :
  MigrateProject false Sample.environment
  ∈ events (DeployCommand.run Extra.force Sample.single) Extra.initialized
  ∧ DeployCommand.ready Sample.single
  ∧ loadAndPrintStatus Sample.single Sample.environment = true.
Proof.
  assert (MigrateProject false Sample.environment
          ∈ events (DeployCommand.run Extra.force Sample.single) Extra.initialized) as Hin
    by (vm_compute; left).
  split; [exact Hin|].
  destruct (migration_requires_all_checks Extra.force Sample.single Extra.initialized
              false Sample.environment Hin) as (_ & Hready & _ & Hstatus & _).
  split; [exact Hready|exact Hstatus].
Defined.

(** X14: when the user declines the confirmation, [run] logs "Deployment
    aborted" right after the prompt and returns: the state is the one that
    the resolution of the environment left, with these two events added. *)
Theorem declined_confirmation_aborts
    (o : IDeployCommandOptions) (w : World) (s s1 : State) (env : IEnvironmentConfig) :
  DeployCommand.ready w →
  DeployCommand.getOrCreateEnvironment o w s = (Return env, s1) →
  loadAndPrintStatus w env = true →
  opt_force o = false →
  inquirer_confirm w = false →
  DeployCommand.run o w s =
  (Return (),
   {| store := store s1;
      trace := trace s1 ++ [InquirerConfirm; LoggerLog "Deployment aborted"] |}).
Proof.
  intros Hready Hresolve Hstatus Hforce Hconfirm.
  rewrite (run_resolved o w s s1 env Hready Hresolve).
  unfold DeployCommand.afterResolutionEvents. by rewrite Hstatus, Hforce, Hconfirm.
Qed.

Lemma declined_confirmation_aborts_witness :
  DeployCommand.run Extra.ask Extra.declining Extra.initialized =
  (Return (),
   {| store := {["default" := Sample.environment]};
      trace := [InquirerConfirm; LoggerLog "Deployment aborted"] |}).
Proof.
  assert (DeployCommand.ready Extra.declining) as Hready by (by repeat split).
  exact (declined_confirmation_aborts Extra.ask Extra.declining Extra.initialized
           Extra.initialized Sample.environment Hready eq_refl eq_refl eq_refl eq_refl).
Defined.

(** X15: after a migration whose response has no error entry and carries a
    bundle, [run] refreshes the local files from that bundle; it then logs
    the change summary and "Deployment successful!" when the refresh
    succeeded, and only "Error loading project config from servers" when it
    failed. *)
Theorem deployment_report_follows_refresh
    (o : IDeployCommandOptions) (w : World) (s s1 : State)
    (env : IEnvironmentConfig) (bundle : string) :
  DeployCommand.ready w →
  DeployCommand.getOrCreateEnvironment o w s = (Return env, s1) →
  loadAndPrintStatus w env = true →
  opt_force o = true ∨ inquirer_confirm w = true →
  DeployCommand.serverErrors (api_migrateProject w false env) = [] →
  DeployCommand.deployedBundle (api_migrateProject w false env) = Some bundle →
  DeployCommand.run o w s =
  (Return (),
   {| store := store s1;
      trace := trace s1
        ++ (if opt_force o then [] else [InquirerConfirm])
        ++ [MigrateProject false env; LoadProjectVersion bundle]
        ++ (if loadProjectVersion w bundle
            then [LoggerLog (DeployCommand.summary
                    (DeployCommand.changeCounts
                       (migrateProject_changes (api_migrateProject w false env))));
                  LoggerLog "Deployment successful!"]
            else [LoggerError "Error loading project config from servers"]) |}).
Proof.
  intros Hready Hresolve Hstatus Hconfirmed Herrors Hbundle.
  rewrite (run_resolved o w s s1 env Hready Hresolve).
  unfold DeployCommand.afterResolutionEvents, DeployCommand.afterMigrationEvents.
  rewrite Hstatus, Herrors, Hbundle.
  destruct (opt_force o); [done|].
  destruct Hconfirmed as [[=]| ->]. done.
Qed.

Lemma deployment_report_follows_refresh_witness :
  DeployCommand.run Extra.force Extra.refreshFails Extra.initialized =
  (Return (),
   {| store := {["default" := Sample.environment]};
      trace := [MigrateProject false Sample.environment;
                LoadProjectVersion "http://localhost/fakeversionbundle.zip";
                LoggerError "Error loading project config from servers"] |}).
Proof.
  assert (DeployCommand.ready Extra.refreshFails) as Hready by (by repeat split).
  exact (deployment_report_follows_refresh Extra.force Extra.refreshFails Extra.initialized
           Extra.initialized Sample.environment "http://localhost/fakeversionbundle.zip"
           Hready eq_refl eq_refl (or_introl eq_refl) eq_refl eq_refl).
Defined.

Lemma afterResolutionEvents_Forall (P : Event → Prop) (o : IDeployCommandOptions)
    (w : World) (env : IEnvironmentConfig) :
  (∀ msg, P (LoggerLog msg)) → (∀ msg, P (LoggerError msg)) →
  (∀ errors, P (PrintErrors errors)) → (∀ bundle, P (LoadProjectVersion bundle)) →
  (∀ dryRun env', P (MigrateProject dryRun env')) →
  (opt_force o = false → P InquirerConfirm) →
  Forall P (DeployCommand.afterResolutionEvents o w env).
Proof.
  intros Hlog Herror Hprint Hload Hmigrate Hconfirm.
  pose proof (afterMigrationEvents_Forall P w (api_migrateProject w false env)
                Hlog Herror Hprint Hload) as Hafter.
  unfold DeployCommand.afterResolutionEvents.
  destruct (loadAndPrintStatus w env); [|constructor].
  destruct (opt_force o); [by constructor|].
  destruct (inquirer_confirm w); repeat constructor; auto.
Qed.



(** X17: with [--force], [run] issues no prompt at all: neither for the
    name or the alias of a new project, nor for the confirmation. *)
Theorem forced_deploy_never_prompts (o : IDeployCommandOptions) (w : World) (s : State) :
  opt_force o = true →
  Forall (λ e, is_prompt e = false) (events (DeployCommand.run o w) s).
Proof.
  intros Hforce. destruct (ready_dec w) as [Hready|Hnot].
  - destruct (run_ready o w s Hready) as (evs & _ & Htrace & Hrun).
    pose proof (forced_no_prompt o w s Hforce) as Hresolution.
    rewrite (events_intro _ _ _ _ evs (surjective_pairing _) Htrace) in Hresolution.
    destruct ((DeployCommand.getOrCreateEnvironment o w s).1) as [env|error].
    + rewrite (events_intro _ _ _ _ _ Hrun eq_refl). apply Forall_app. split; [done|].
      apply afterResolutionEvents_Forall; try done. by rewrite Hforce.
    + by rewrite (events_intro _ _ _ _ _ Hrun Htrace).
  - destruct (run_not_ready o w Hnot) as (evs & Hsteady & Hevs).
    rewrite (steady_events _ _ _ s Hsteady).
    eapply Forall_impl; [exact Hevs|]. by intros e (msg & [-> | ->]).
Qed.

Lemma forced_deploy_never_prompts_witness :
  opt_force Extra.force = true
  ∧ Forall (λ e, is_prompt e = false)
      (events (DeployCommand.run Extra.force Sample.single) (Sample.start ∅)).
Proof.
  split; [reflexivity|].
  exact (forced_deploy_never_prompts Extra.force Sample.single (Sample.start ∅) eq_refl).
Defined.

(** X18: when the checks have passed and the resolution of the environment
    throws, [run] throws the same error and does nothing more: its state is
    the one that the resolution left. *)
Theorem resolution_failure_is_fatal
    (o : IDeployCommandOptions) (w : World) (s : State) (error : string) :
  DeployCommand.ready w →
  (DeployCommand.getOrCreateEnvironment o w s).1 = Throw error →
  DeployCommand.run o w s =
  (Throw error, (DeployCommand.getOrCreateEnvironment o w s).2).
Proof.
  intros Hready Hthrow. apply run_unresolved; [done|].
  rewrite <- Hthrow. apply surjective_pairing.
Qed.

Lemma resolution_failure_is_fatal_witness :
  DeployCommand.ready Sample.unreachable
  ∧ (DeployCommand.run Extra.force Sample.unreachable (Sample.start ∅)).1
    = Throw "Error creating project".
Proof.
  assert (DeployCommand.ready Sample.unreachable) as Hready by (by repeat split).
  split; [exact Hready|].
  assert ((DeployCommand.getOrCreateEnvironment Extra.force Sample.unreachable
             (Sample.start ∅)).1 = Throw "Error creating project") as Hthrow
    by reflexivity.
  rewrite (resolution_failure_is_fatal Extra.force Sample.unreachable (Sample.start ∅)
             "Error creating project" Hready Hthrow).
  reflexivity.
Defined.

(** ** The change summary *)





Lemma bucketCount_cons (tag : string) (change : Change) (changes : list Change) :
  DeployCommand.bucketCount tag (change :: changes) =
  (if decide (JS.toLowerCase (change_type change) = JS.toLowerCase tag) then 1 else 0)
  + DeployCommand.bucketCount tag changes.
Proof.
  unfold DeployCommand.bucketCount. rewrite filter_cons.
  case_decide; cbn [length]; rewrite ?Nat2Z.inj_succ; lia.
Qed.

(** X20: the three counters of the change summary are numbers, and they add
    up to the number of changes whose type is add, update or remove in any
    letter case: each such change is counted exactly once. *)
Theorem counters_add_up (changes : list Change) :
  ∃ add update remove : Z,
    DeployCommand.changeCounts changes !! "add" = Some (JS.Num add)
    ∧ DeployCommand.changeCounts changes !! "update" = Some (JS.Num update)
    ∧ DeployCommand.changeCounts changes !! "remove" = Some (JS.Num remove)
    ∧ add + update + remove =
      Z.of_nat (length (filter
        (λ change, JS.toLowerCase (change_type change) ∈ ["add"; "update"; "remove"])
        changes)).
Proof.
  exists (DeployCommand.bucketCount "add" changes),
    (DeployCommand.bucketCount "update" changes),
    (DeployCommand.bucketCount "remove" changes).
  unfold DeployCommand.changeCounts.
  rewrite (foldl_countChange_lookup _ _ "add" 0),
    (foldl_countChange_lookup _ _ "update" 0),
    (foldl_countChange_lookup _ _ "remove" 0) by done.
  rewrite !Z.add_0_l. repeat (split; [done|]).
  induction changes as [|change changes IH]; [done|].
  rewrite !bucketCount_cons, filter_cons.
  change (JS.toLowerCase "add") with "add". change (JS.toLowerCase "update") with "update".
  change (JS.toLowerCase "remove") with "remove".
  set (tag := JS.toLowerCase (change_type change)) in *.
  destruct (decide (tag = "add")) as [Ha|Ha];
    destruct (decide (tag = "update")) as [Hu|Hu];
    destruct (decide (tag = "remove")) as [Hr|Hr];
    destruct (decide (tag ∈ ["add"; "update"; "remove"])) as [Hin|Hin];
    cbn [length]; rewrite ?Nat2Z.inj_succ;
    try lia; try congruence;
    rewrite !elem_of_cons, elem_of_nil in Hin; tauto.
Qed.

(** ** [InitCommand.run] *)

Lemma script_ret_run {A} (a : A) (d : Disk) : (mret a : Script A) d = (Return a, d).
Proof. reflexivity. Qed.

Lemma script_bind_run {A B} (m : Script A) (f : A → Script B) (d : Disk) :
  (m ≫= f) d =
  match m d with
  | (Return a, d') => f a d'
  | (Throw e, d') => (Throw e, d')
  end.
Proof. reflexivity. Qed.

Lemma extend_nil (d : Disk) : extend d [] = d.
Proof. unfold extend. rewrite app_nil_r. by destruct d. Qed.

Lemma extend_extend (d : Disk) (evs1 evs2 : list Effect) :
  extend (extend d evs1) evs2 = extend d (evs1 ++ evs2).
Proof. unfold extend. cbn. by rewrite <- app_assoc. Qed.

Lemma effect_run (e : Effect) (d : Disk) : effect e d = (Return (), extend d [e]).
Proof. reflexivity. Qed.

Lemma say_run (e : Event) (d : Disk) : say e d = (Return (), extend d [Observe e]).
Proof. reflexivity. Qed.

Lemma perform_ok (h : Host) (op : FileOp) (d : Disk) :
  failure h op = None → perform h op d = (Return (), extend d [Perform op]).
Proof. intros Hop. unfold perform. by rewrite script_bind_run, effect_run, Hop. Qed.

Lemma perform_fails (h : Host) (op : FileOp) (msg : string) (d : Disk) :
  failure h op = Some msg → perform h op d = (Throw msg, extend d [Perform op]).
Proof. intros Hop. unfold perform. by rewrite script_bind_run, effect_run, Hop. Qed.

Lemma performed_extend {A} (m : Script A) (d : Disk) (r : Outcome A) (evs : list Effect) :
  m d = (r, extend d evs) → performed m d = evs.
Proof.
  intros Hm. unfold performed. rewrite Hm. cbn. by rewrite drop_app_length.
Qed.

Lemma tryCatch_run {A} (body : Script A) (handler : string → Script A) (d : Disk) :
  tryCatch body handler d =
  match body d with
  | (Throw e, d') => handler e d'
  | (Return a, d') => (Return a, d')
  end.
Proof. unfold tryCatch. by destruct (body d) as [[a|e] d']. Qed.

Lemma error_run {A} (msg : string) (d : Disk) : (error msg : Script A) d = (Throw msg, d).
Proof. reflexivity. Qed.

(** One operation of a script: it either throws or lets the script go on. *)
Ltac perform_step h op :=
  rewrite ?script_bind_run;
  let msg := fresh "msg" in
  let Hop := fresh "Hop" in
  destruct (failure h op) as [msg|] eqn:Hop;
  [rewrite (perform_fails h op msg) by exact Hop
  |rewrite (perform_ok h op) by exact Hop];
  cbv beta iota; rewrite ?extend_extend; cbn [app].

Lemma extractBundle_cases (h : Host) (targetDir : string) (version : Version)
    (bundle : string) (d : Disk) :
  (Forall (λ op, failure h op = None) (InitCommand.bundleOps h targetDir version bundle)
   ∧ InitCommand.extractBundle h targetDir version bundle d =
     (Return (), extend d (Perform <$> InitCommand.bundleOps h targetDir version bundle)))
  ∨ (Exists (λ op, failure h op ≠ None) (InitCommand.bundleOps h targetDir version bundle)
     ∧ ∃ msg n,
         InitCommand.extractBundle h targetDir version bundle d =
         (Throw msg,
          extend d (Perform <$> take n (InitCommand.bundleOps h targetDir version bundle)))).
Proof.
  unfold InitCommand.extractBundle, InitCommand.bundleOps.
  perform_step h (FetchBundle bundle).
  { right. split; [left; congruence|]. by exists msg, 1%nat. }
  rewrite ?script_bind_run, tryCatch_run.
  perform_step h ResponseBuffer.
  { right. split; [right; left; congruence|]. rewrite error_run. by eexists _, 2%nat. }
  perform_step h (WriteFileSync (InitCommand.tmpFile h version)).
  { right. split; [do 2 right; left; congruence|]. rewrite error_run. by eexists _, 3%nat. }
  perform_step h (OpenZip (InitCommand.tmpFile h version)).
  { right. split; [do 3 right; left; congruence|]. by eexists _, 4%nat. }
  perform_step h (MkdirpSync (InitCommand.moduleCacheDir h targetDir)).
  { right. split; [do 4 right; left; congruence|]. by eexists _, 5%nat. }
  perform_step h (ExtractAllTo (InitCommand.moduleCacheDir h targetDir)).
  { right. split; [do 5 right; left; congruence|]. by eexists _, 6%nat. }
  perform_step h (ExtractEntryTo "slicknode.yml" targetDir).
  { right. split; [do 6 right; left; congruence|]. by eexists _, 7%nat. }
  left. split; [by repeat constructor|done].
Qed.

Lemma observe_getCluster (w : World) (d : Disk) :
  observe (InitCommand.getCluster w) d =
  ((InitCommand.clusterOutcome w).1,
   extend d (Observe <$> trace (InitCommand.clusterOutcome w).2)).
Proof.
  unfold observe, InitCommand.clusterOutcome.
  by destruct (InitCommand.getCluster w _) as [outcome s].
Qed.

Lemma resolveTargetDir_ok (h : Host) (d : Disk) :
  (InitCommand.createsDirectory h = true →
   failure h (MkdirpSync (InitCommand.targetDir h)) = None) →
  InitCommand.resolveTargetDir h d =
  (Return (InitCommand.targetDir h),
   extend d (if InitCommand.createsDirectory h
             then [Perform (MkdirpSync (InitCommand.targetDir h))] else [])).
Proof.
  unfold InitCommand.resolveTargetDir, InitCommand.targetDir, InitCommand.createsDirectory.
  destruct (InitCommand.givenName h) as [name|]; [|by rewrite script_ret_run, extend_nil].
  destruct (JS.truthy (Some name) && negb (InitCommand.dirExplicitlySet h));
    [|by rewrite script_ret_run, extend_nil].
  intros Hok. rewrite script_bind_run, tryCatch_run, perform_ok by auto. done.
Qed.


(** Past its checks, [run] resolves the cluster and, with a cluster, sends
    the creation request and initializes the project inside the [try]. *)
Lemma run_proceeds (h : Host) (w : World) (d : Disk) :
  InitCommand.proceeds h w d →
  match (InitCommand.clusterOutcome w).1 with
  | Return (Some c) =>
      InitCommand.run h w d =
      tryCatch
        (InitCommand.initialize h (InitCommand.targetDir h)
           (api_createProject w (InitCommand.request h c)))
        (λ e, error ("Initialization failed: " +:+ e))
        (extend d (InitCommand.preparation h w
                   ++ [Observe (CliAction true);
                       Observe (ClientFetch (CreateProject (InitCommand.request h c)));
                       Observe (CliAction false)]))
  | Return None =>
      InitCommand.run h w d =
      (Throw ("Could not load available clusters. "
              +:+ "Make sure you have a working internet connection and try again."),
       extend d (InitCommand.preparation h w))
  | Throw e => InitCommand.run h w d = (Throw e, extend d (InitCommand.preparation h w))
  end.
Proof.
  intros (Hnone & Hupdate & Hauth & Hdir).
  assert (InitCommand.run h w d =
          match (InitCommand.clusterOutcome w).1 with
          | Return (Some c) =>
              tryCatch
                (InitCommand.initialize h (InitCommand.targetDir h)
                   (api_createProject w (InitCommand.request h c)))
                (λ e, error ("Initialization failed: " +:+ e))
                (extend d (InitCommand.preparation h w
                           ++ [Observe (CliAction true);
                               Observe (ClientFetch (CreateProject (InitCommand.request h c)));
                               Observe (CliAction false)]))
          | Return None =>
              (Throw ("Could not load available clusters. "
                      +:+ "Make sure you have a working internet connection and try again."),
               extend d (InitCommand.preparation h w))
          | Throw e => (Throw e, extend d (InitCommand.preparation h w))
          end) as Hrun.
  { unfold InitCommand.run, InitCommand.preparation.
    rewrite script_bind_run. unfold getEnvironmentIn at 1. rewrite Hnone, Hupdate, Hauth.
    cbn [negb]. rewrite script_bind_run, (resolveTargetDir_ok h d Hdir).
    rewrite script_bind_run, observe_getCluster, extend_extend.
    destruct ((InitCommand.clusterOutcome w).1) as [[c|]|e]; [|done|done].
    repeat (rewrite script_bind_run, say_run; cbv beta iota; rewrite extend_extend).
    by rewrite <- !app_assoc. }
  by destruct ((InitCommand.clusterOutcome w).1) as [[c|]|e].
Qed.

Lemma initialize_no_node (h : Host) (targetDir : string) (result : CreateProjectResult)
    (d : Disk) :
  createProject_node result = None →
  InitCommand.initialize h targetDir result d =
  (Throw (String.concat newline
            ("ERROR: Could not create project. Please try again later."
             :: (message <$> createProject_errors result))),
   extend d [Observe (CliAction true)]).
Proof.
  intros Hnode. unfold InitCommand.initialize.
  by rewrite script_bind_run, say_run, Hnode.
Qed.

Lemma initialize_node (h : Host) (targetDir : string) (result : CreateProjectResult)
    (project : ProjectNode) (d : Disk) :
  createProject_node result = Some project →
  InitCommand.initialize h targetDir result d =
  match InitCommand.bundleOf project with
  | None => (Throw InitCommand.notInitialized, extend d [Observe (CliAction true)])
  | Some (version, bundle) =>
      (InitCommand.extractBundle h targetDir version bundle ;;
       updateEnvironmentIn targetDir "default" (InitCommand.environment project version) ;;
       InitCommand.completeProject h targetDir project version)
        (extend d [Observe (CliAction true)])
  end.
Proof.
  intros Hnode. unfold InitCommand.initialize, InitCommand.bundleOf.
  rewrite script_bind_run, say_run, Hnode. cbv beta iota.
  destruct (node_version project) as [version|]; [|done].
  destruct (version_bundle version) as [bundle|]; [|done].
  by destruct (JS.truthy (Some bundle)).
Qed.

Lemma completeProject_run (h : Host) (targetDir : string) (project : ProjectNode)
    (version : Version) (d : Disk) :
  InitCommand.completeProject h targetDir project version d =
  match failure h (InitCommand.appendGitIgnore h targetDir) with
  | Some msg => (Throw msg, extend d [Perform (InitCommand.appendGitIgnore h targetDir)])
  | None =>
      match failure h (InitCommand.copyConfig h targetDir) with
      | Some msg =>
          (Throw msg,
           extend d (Perform (InitCommand.appendGitIgnore h targetDir)
                     :: InitCommand.unlinkEffects h version
                     ++ [Perform (InitCommand.copyConfig h targetDir)]))
      | None =>
          (Return (),
           extend d (Perform (InitCommand.appendGitIgnore h targetDir)
                     :: InitCommand.unlinkEffects h version
                     ++ [Perform (InitCommand.copyConfig h targetDir);
                         Observe (LoggerLog (InitCommand.readyMessage project));
                         Observe (LoggerLog InitCommand.helpMessage)]))
      end
  end.
Proof.
  unfold InitCommand.completeProject, InitCommand.unlinkEffects.
  perform_step h (InitCommand.appendGitIgnore h targetDir); [done|].
  rewrite ?script_bind_run, tryCatch_run.
  destruct (failure h (Unlink (InitCommand.tmpFile h version))) as [msg|] eqn:Hunlink.
  - rewrite (perform_fails h _ msg) by done. rewrite say_run. cbv beta iota.
    rewrite extend_extend.
    perform_step h (InitCommand.copyConfig h targetDir); [done|].
    repeat (rewrite ?script_bind_run, say_run; cbv beta iota; rewrite extend_extend).
    done.
  - rewrite (perform_ok h _) by done. cbv beta iota. rewrite ?extend_extend.
    perform_step h (InitCommand.copyConfig h targetDir); [done|].
    repeat (rewrite ?script_bind_run, say_run; cbv beta iota; rewrite extend_extend).
    done.
Qed.

(** The project is initialized from the bundle: either an operation of
    [extractBundle] throws and nothing is written, or the record is written
    and [completeProject] follows. *)
Lemma initialize_bundle (h : Host) (targetDir : string) (result : CreateProjectResult)
    (project : ProjectNode) (version : Version) (bundle : string) (d : Disk) :
  createProject_node result = Some project →
  InitCommand.bundleOf project = Some (version, bundle) →
  (Exists (λ op, failure h op ≠ None) (InitCommand.bundleOps h targetDir version bundle)
   ∧ ∃ msg n,
       InitCommand.initialize h targetDir result d =
       (Throw msg,
        extend d (Observe (CliAction true)
                  :: (Perform <$> take n (InitCommand.bundleOps h targetDir version bundle)))))
  ∨ (Forall (λ op, failure h op = None) (InitCommand.bundleOps h targetDir version bundle)
     ∧ InitCommand.initialize h targetDir result d =
       InitCommand.completeProject h targetDir project version
         {| environments :=
              <[targetDir := <["default" := InitCommand.environment project version]>
                               (default ∅ (environments d !! targetDir))]> (environments d);
            effects :=
              effects d ++ Observe (CliAction true)
              :: (Perform <$> InitCommand.bundleOps h targetDir version bundle)
              ++ [Persist targetDir "default" (InitCommand.environment project version)] |}).
Proof.
  intros Hnode Hbundle. rewrite (initialize_node h targetDir result project d Hnode), Hbundle.
  rewrite script_bind_run.
  destruct (extractBundle_cases h targetDir version bundle
              (extend d [Observe (CliAction true)]))
    as [[Hok ->]|(Hfails & msg & n & ->)].
  - right. split; [done|]. rewrite script_bind_run. unfold updateEnvironmentIn at 1.
    cbn [extend environments effects]. by rewrite <- !app_assoc.
  - left. split; [done|]. exists msg, n. by rewrite extend_extend.
Qed.

Lemma init_refused_helper
    (h : Host) (w : World) (d : Disk) (record : IEnvironmentConfig) :
  environments d !! projectRoot h ≫= (.!! "default") = Some record →
  InitCommand.run h w d =
  (Throw "The directory is already initialized as a slicknode project", d).
Proof.
  intros Hrecord. unfold InitCommand.run. rewrite script_bind_run.
  unfold getEnvironmentIn at 1. by rewrite Hrecord.
Qed.

(** X21: in a project directory that has a [default] record, [run] of the
    init command throws at once: it adds no effect and leaves every store
    as it is. *)
Theorem init_refuses_initialized_directory
    (h : Host) (w : World) (d : Disk) (record : IEnvironmentConfig) :
  environments d !! projectRoot h ≫= (.!! "default") = Some record →
  InitCommand.run h w d =
  (Throw "The directory is already initialized as a slicknode project", d).
Proof. apply init_refused_helper. Qed.

Lemma init_refuses_initialized_directory_witness :
  environments Extra.initializedDisk !! projectRoot (Extra.host Extra.noFailure)
    ≫= (.!! "default") = Some Sample.environment
  ∧ InitCommand.run (Extra.host Extra.noFailure) Sample.single Extra.initializedDisk =
    (Throw "The directory is already initialized as a slicknode project",
     Extra.initializedDisk).
Proof.
  assert (environments Extra.initializedDisk !! projectRoot (Extra.host Extra.noFailure)
            ≫= (.!! "default") = Some Sample.environment) as Hrecord by reflexivity.
  split; [exact Hrecord|].
  exact (init_refuses_initialized_directory (Extra.host Extra.noFailure) Sample.single
           Extra.initializedDisk Sample.environment Hrecord).
Defined.



(** X23: when the backend lists no cluster, [run] throws "Could not load
    available clusters ..." after the listing request: no creation request
    is sent and no store is written, but a project directory that [run]
    had to create has been created. *)
Theorem init_without_cluster (h : Host) (w : World) (d : Disk) :
  InitCommand.proceeds h w d →
  listCluster_edges (api_listCluster w) = [] →
  InitCommand.run h w d =
  (Throw ("Could not load available clusters. "
          +:+ "Make sure you have a working internet connection and try again."),
   extend d ((if InitCommand.createsDirectory h
              then [Perform (MkdirpSync (InitCommand.targetDir h))] else [])
             ++ [Observe (CliAction true); Observe (ClientFetch ListCluster)])).
Proof.
  intros Hproceeds Hedges. pose proof (run_proceeds h w d Hproceeds) as Hrun.
  unfold InitCommand.preparation, InitCommand.clusterOutcome in Hrun.
  by rewrite (init_getCluster_empty w _ Hedges) in Hrun.
Qed.

Lemma init_without_cluster_witness :
  InitCommand.proceeds (Extra.namedHost Extra.noFailure) Extra.noCluster Extra.blank
  ∧ InitCommand.run (Extra.namedHost Extra.noFailure) Extra.noCluster Extra.blank =
    (Throw ("Could not load available clusters. "
            +:+ "Make sure you have a working internet connection and try again."),
     extend Extra.blank
       [Perform (MkdirpSync "/home/user/Blog");
        Observe (CliAction true); Observe (ClientFetch ListCluster)]).
Proof.
  assert (InitCommand.proceeds (Extra.namedHost Extra.noFailure) Extra.noCluster Extra.blank)
    as Hproceeds by (by repeat split).
  split; [exact Hproceeds|].
  exact (init_without_cluster (Extra.namedHost Extra.noFailure) Extra.noCluster Extra.blank
           Hproceeds eq_refl).
Defined.

(** The effects of [run] up to the [try] block, for a cluster. *)
Lemma run_with_cluster (h : Host) (w : World) (d : Disk) (c : ICluster) :
  InitCommand.proceeds h w d →
  (InitCommand.clusterOutcome w).1 = Return (Some c) →
  InitCommand.run h w d =
  tryCatch
    (InitCommand.initialize h (InitCommand.targetDir h)
       (api_createProject w (InitCommand.request h c)))
    (λ e, error ("Initialization failed: " +:+ e))
    (extend d (InitCommand.preparation h w
               ++ [Observe (CliAction true);
                   Observe (ClientFetch (CreateProject (InitCommand.request h c)));
                   Observe (CliAction false)])).
Proof.
  intros Hproceeds Hcluster. pose proof (run_proceeds h w d Hproceeds) as Hrun.
  by rewrite Hcluster in Hrun.
Qed.

(** X24: when the creation response has no project node, [run] throws
    "Initialization failed: ERROR: Could not create project. Please try
    again later." followed by the messages of the response, one per line;
    when the node has no bundle, it throws "Initialization failed: Project
    was created but could not be fully initialized ...".  In both cases no
    operation on files is tried after the request and no store is
    written. *)
Theorem init_reports_failed_creation (h : Host) (w : World) (d : Disk) (c : ICluster) :
  InitCommand.proceeds h w d →
  (InitCommand.clusterOutcome w).1 = Return (Some c) →
  (createProject_node (api_createProject w (InitCommand.request h c)) = None →
   InitCommand.run h w d =
   (Throw ("Initialization failed: "
           +:+ String.concat newline
                 ("ERROR: Could not create project. Please try again later."
                  :: (message <$> createProject_errors
                                    (api_createProject w (InitCommand.request h c))))),
    extend d (InitCommand.preparation h w
              ++ [Observe (CliAction true);
                  Observe (ClientFetch (CreateProject (InitCommand.request h c)));
                  Observe (CliAction false); Observe (CliAction true)])))
  ∧ (∀ project,
       createProject_node (api_createProject w (InitCommand.request h c)) = Some project →
       InitCommand.bundleOf project = None →
       InitCommand.run h w d =
       (Throw ("Initialization failed: Project was created but could not be fully "
               +:+ "initialized, possibly because of no available capacity. "
               +:+ "Try to clone the project later."),
        extend d (InitCommand.preparation h w
                  ++ [Observe (CliAction true);
                      Observe (ClientFetch (CreateProject (InitCommand.request h c)));
                      Observe (CliAction false); Observe (CliAction true)]))).
Proof.
  intros Hproceeds Hcluster. rewrite (run_with_cluster h w d c Hproceeds Hcluster).
  split.
  - intros Hnode. rewrite tryCatch_run, (initialize_no_node _ _ _ _ Hnode), error_run.
    by rewrite extend_extend, <- app_assoc.
  - intros project Hnode Hbundle.
    rewrite tryCatch_run, (initialize_node _ _ _ project _ Hnode), Hbundle, error_run.
    by rewrite extend_extend, <- app_assoc.
Qed.

Lemma init_reports_failed_creation_witness :
  (InitCommand.run (Extra.host Extra.noFailure) Extra.creationFails Extra.blank).1 =
    Throw ("Initialization failed: ERROR: Could not create project. Please try again later."
           +:+ newline +:+ "Error")
  ∧ (InitCommand.run (Extra.host Extra.noFailure) Extra.incompleteCreation Extra.blank).1 =
    Throw ("Initialization failed: Project was created but could not be fully "
           +:+ "initialized, possibly because of no available capacity. "
           +:+ "Try to clone the project later.").
Proof.
  assert (InitCommand.proceeds (Extra.host Extra.noFailure) Extra.creationFails Extra.blank)
    as Hproceeds1 by (by repeat split).
  assert (InitCommand.proceeds (Extra.host Extra.noFailure) Extra.incompleteCreation
            Extra.blank) as Hproceeds2 by (by repeat split).
  destruct (init_reports_failed_creation (Extra.host Extra.noFailure) Extra.creationFails
              Extra.blank Sample.east Hproceeds1 eq_refl) as [Hnode _].
  destruct (init_reports_failed_creation (Extra.host Extra.noFailure)
              Extra.incompleteCreation Extra.blank Sample.east Hproceeds2 eq_refl)
    as [_ Hbundle].
  split.
  - rewrite (Hnode eq_refl). reflexivity.
  - rewrite (Hbundle Extra.projectWithoutVersion eq_refl eq_refl). reflexivity.
Defined.



Lemma bundleOps_not_persist (ops : list FileOp) :
  Forall (λ e, ∀ dir name config, e ≠ Persist dir name config) (Perform <$> ops).
Proof. apply Forall_fmap, Forall_true. by intros op dir name config. Qed.

Lemma preparation_not_persist (h : Host) (w : World) :
  Forall (λ e, ∀ dir name config, e ≠ Persist dir name config) (InitCommand.preparation h w).
Proof.
  unfold InitCommand.preparation. apply Forall_app. split.
  - destruct (InitCommand.createsDirectory h); by repeat constructor.
  - apply Forall_fmap, Forall_true. by intros e dir name config.
Qed.

(** X26: when an operation of the download and extraction of the bundle
    throws (fetching, reading or writing the bundle, opening the archive,
    creating the cache directory, extracting), [run] throws with the prefix
    "Initialization failed: " and has written no environment record: every
    store is as it was, although the project exists on the backend. *)
Theorem init_extraction_failure_writes_no_record
    (h : Host) (w : World) (d : Disk) (c : ICluster)
    (project : ProjectNode) (version : Version) (bundle : string) :
  InitCommand.proceeds h w d →
  (InitCommand.clusterOutcome w).1 = Return (Some c) →
  createProject_node (api_createProject w (InitCommand.request h c)) = Some project →
  InitCommand.bundleOf project = Some (version, bundle) →
  Exists (λ op, failure h op ≠ None)
    (InitCommand.bundleOps h (InitCommand.targetDir h) version bundle) →
  (∃ reason, (InitCommand.run h w d).1 = Throw ("Initialization failed: " +:+ reason))
  ∧ environments (InitCommand.run h w d).2 = environments d
  ∧ Forall (λ e, ∀ dir name config, e ≠ Persist dir name config)
      (performed (InitCommand.run h w) d).
Proof.
  intros Hproceeds Hcluster Hnode Hbundle Hfails.
  pose proof (run_with_cluster h w d c Hproceeds Hcluster) as Hrun.
  rewrite tryCatch_run in Hrun.
  destruct (initialize_bundle h (InitCommand.targetDir h) _ project version bundle
              (extend d (InitCommand.preparation h w
                 ++ [Observe (CliAction true);
                     Observe (ClientFetch (CreateProject (InitCommand.request h c)));
                     Observe (CliAction false)])) Hnode Hbundle)
    as [(_ & msg & n & Hinit)|[Hok _]].
  - rewrite Hinit, error_run, extend_extend in Hrun.
    rewrite (performed_extend _ _ _ _ Hrun), Hrun. cbn [fst snd extend environments].
    split; [by exists msg|]. split; [done|].
    apply Forall_app; split;
      [apply Forall_app; split; [apply preparation_not_persist|by repeat constructor]|].
    apply Forall_cons; split; [done|apply bundleOps_not_persist].
  - exfalso. apply Exists_exists in Hfails as (op & Hin & Hfail).
    rewrite Forall_forall in Hok. by apply Hfail, Hok.
Qed.

Lemma init_extraction_failure_writes_no_record_witness :
  (InitCommand.run (Extra.host Extra.corruptBundle) Sample.single Extra.blank).1
    = Throw "Initialization failed: Invalid or unsupported zip format"
  ∧ environments (InitCommand.run (Extra.host Extra.corruptBundle) Sample.single
                    Extra.blank).2 = ∅.
Proof.
  assert (InitCommand.proceeds (Extra.host Extra.corruptBundle) Sample.single Extra.blank)
    as Hproceeds by (by repeat split).
  assert (Exists (λ op, failure (Extra.host Extra.corruptBundle) op ≠ None)
            (InitCommand.bundleOps (Extra.host Extra.corruptBundle)
               (InitCommand.targetDir (Extra.host Extra.corruptBundle))
               {| version_bundle := Some "http://localhost/fakeversionbundle.zip";
                  version_id := Some "someid" |}
               "http://localhost/fakeversionbundle.zip")) as Hfails
    by (do 3 right; left; discriminate).
  destruct (init_extraction_failure_writes_no_record (Extra.host Extra.corruptBundle)
              Sample.single Extra.blank Sample.east Sample.project _ _
              Hproceeds eq_refl eq_refl eq_refl Hfails) as (_ & Hstore & _).
  split; [reflexivity|exact Hstore].
Defined.



(** X28: when the record has been written and the operation on
    [.gitignore] or the copy of the configuration file throws, [run] throws
    with the prefix "Initialization failed: " and the record stays in the
    store of the project directory. *)
Theorem init_late_failure_keeps_record
    (h : Host) (w : World) (d : Disk) (c : ICluster)
    (project : ProjectNode) (version : Version) (bundle msg : string) :
  InitCommand.proceeds h w d →
  (InitCommand.clusterOutcome w).1 = Return (Some c) →
  createProject_node (api_createProject w (InitCommand.request h c)) = Some project →
  InitCommand.bundleOf project = Some (version, bundle) →
  Forall (λ op, failure h op = None)
    (InitCommand.bundleOps h (InitCommand.targetDir h) version bundle) →
  failure h (InitCommand.appendGitIgnore h (InitCommand.targetDir h)) = Some msg
  ∨ (failure h (InitCommand.appendGitIgnore h (InitCommand.targetDir h)) = None
     ∧ failure h (InitCommand.copyConfig h (InitCommand.targetDir h)) = Some msg) →
  (InitCommand.run h w d).1 = Throw ("Initialization failed: " +:+ msg)
  ∧ environments (InitCommand.run h w d).2 !! InitCommand.targetDir h ≫= (.!! "default")
    = Some (InitCommand.environment project version).
Proof.
  intros Hproceeds Hcluster Hnode Hbundle Hops Hlate.
  pose proof (run_with_cluster h w d c Hproceeds Hcluster) as Hrun.
  rewrite tryCatch_run in Hrun.
  destruct (initialize_bundle h (InitCommand.targetDir h) _ project version bundle
              (extend d (InitCommand.preparation h w
                 ++ [Observe (CliAction true);
                     Observe (ClientFetch (CreateProject (InitCommand.request h c)));
                     Observe (CliAction false)])) Hnode Hbundle)
    as [[Hfails _]|[_ Hinit]].
  { exfalso. apply Exists_exists in Hfails as (op & Hin & Hfail).
    rewrite Forall_forall in Hops. by apply Hfail, Hops. }
  rewrite Hinit, completeProject_run in Hrun.
  destruct Hlate as [Happend|[Happend Hcopy]].
  - rewrite Happend, error_run in Hrun. rewrite Hrun. cbn [fst snd extend environments].
    split; [done|]. rewrite lookup_insert_eq. cbn. apply lookup_insert_eq.
  - rewrite Happend, Hcopy, error_run in Hrun. rewrite Hrun.
    cbn [fst snd extend environments].
    split; [done|]. rewrite lookup_insert_eq. cbn. apply lookup_insert_eq.
Qed.

Lemma init_late_failure_keeps_record_witness :
  (InitCommand.run (Extra.host Extra.gitIgnoreLocked) Sample.single Extra.blank).1
    = Throw "Initialization failed: EACCES: permission denied"
  ∧ environments (InitCommand.run (Extra.host Extra.gitIgnoreLocked) Sample.single
                    Extra.blank).2 !! "/projects/empty" ≫= (.!! "default")
    = Some Sample.environment.
Proof.
  assert (InitCommand.proceeds (Extra.host Extra.gitIgnoreLocked) Sample.single Extra.blank)
    as Hproceeds by (by repeat split).
  assert (Forall (λ op, failure (Extra.host Extra.gitIgnoreLocked) op = None)
            (InitCommand.bundleOps (Extra.host Extra.gitIgnoreLocked)
               (InitCommand.targetDir (Extra.host Extra.gitIgnoreLocked))
               {| version_bundle := Some "http://localhost/fakeversionbundle.zip";
                  version_id := Some "someid" |}
               "http://localhost/fakeversionbundle.zip")) as Hops
    by (by repeat constructor).
  exact (init_late_failure_keeps_record (Extra.host Extra.gitIgnoreLocked) Sample.single
           Extra.blank Sample.east Sample.project _ _ "EACCES: permission denied"
           Hproceeds eq_refl eq_refl eq_refl Hops (or_introl eq_refl)).
Defined.
